(** * Hybrid-shard FSDP test helpers and the FX-to-ONNX exporter

    A shallow embedding of

      - [torch/onnx/_internal/fx/exporter.py]: the entry points [export] and
        [export_after_normalizing_args_and_kwargs] and the shared [_export];
      - [test/distributed/fsdp/test_fsdp_hybrid_shard.py]: the context
        managers [patch_reduce_scatter] and [patch_allreduce], the module
        name space and the body of [test_fsdp_hybrid_shard_basic_setup].

    Both files are glue over the host framework.  The framework's passes,
    tracers and collectives are the members of an interface class; what is
    embedded is the Python of the two files: sequencing, exception
    propagation, [with] blocks, attribute and name binding, and call
    signatures.  The part of the framework that the test only calls (the
    wrapper and its process groups) is modelled from the specification in
    [FSDPModel], as an instance of the test's interface. *)

From stdpp Require Import gmap strings list.
From Stdlib Require Import ZArith Ascii.

Local Open Scope string_scope.
Local Open Scope list_scope.

(** ** Python values, outcomes and names *)

Module Py.

(** A call either returns a value or raises an exception. *)
Inductive outcome (E A : Type) : Type :=
| Return (a : A)
| Raise (e : E).
Global Arguments Return {E A} a.
Global Arguments Raise {E A} e.

Definition is_return {E A} (r : outcome E A) : bool :=
  match r with Return _ => true | Raise _ => false end.

(** The objects the two files pass around.  [VObj] is an object owned by the
    framework (a tensor, a dtype, a function ...). *)
#[warnings="-register-all"]
Inductive value (Obj : Type) : Type :=
| VNone
| VBool (b : bool)
| VInt (z : Z)
| VStr (s : string)
| VObj (o : Obj)
| VList (l : list (value Obj))
| VTuple (l : list (value Obj)).
Global Arguments VNone {Obj}.
Global Arguments VBool {Obj} b.
Global Arguments VInt {Obj} z.
Global Arguments VStr {Obj} s.
Global Arguments VObj {Obj} o.
Global Arguments VList {Obj} l.
Global Arguments VTuple {Obj} l.

(** [x is None] is decidable; [x is not None] is its negation. *)
#[global] Instance is_None_dec {Obj} (x : value Obj) : Decision (x = VNone).
Proof. destruct x; first [by left | right; discriminate]. Defined.

(** Keyword arguments keep the order of the call, as a Python dict does. *)
Definition kwargs (Obj : Type) : Type := list (string * value Obj).

(** A Python function as the exporter sees it: called with positional and
    keyword arguments, it returns or raises. *)
Definition pyfun (Exn Obj : Type) : Type :=
  list (value Obj) → kwargs Obj → outcome Exn (value Obj).

End Py.
Import Py.

(** ** Binding the arguments of a call to a signature

    How Python binds the positional and keyword arguments of a call to the
    parameters of a [def]: positional arguments fill the leading parameters
    and the rest goes to the starred parameter; a keyword goes to the
    parameter of its name, or to the double-starred parameter when there is
    one; a parameter given twice, a keyword nobody takes, too many positional
    arguments and a parameter without default left unbound are TypeErrors. *)

Module Signature.

(** A parameter and whether the [def] gives it a default. *)
Record parameter : Type := {
  name : string;
  has_default : bool;
}.

(** [def f(p1, ..., *args, k1=..., ..., **kwargs)] *)
Record signature : Type := {
  positional_or_keyword : list parameter;
  var_positional : option string;
  keyword_only : list parameter;
  var_keyword : option string;
}.

Inductive TypeError : Type :=
| TooManyPositional
| MultipleValues (name : string)
| UnexpectedKeyword (name : string)
| MissingArgument (name : string).

Section bind.
Context {V : Type}.

(** What a call binds: the named parameters given, what the starred
    parameter collects and what the double-starred one collects. *)
Record bound_arguments : Type := {
  arguments : list (string * V);
  varargs : list V;
  varkw : list (string * V);
}.

Definition parameters (sig : signature) : list parameter :=
  positional_or_keyword sig ++ keyword_only sig.

(** The keywords of the call, in order; [named] and [extra] are what is
    bound so far. *)
Fixpoint bind_keywords (sig : signature) (kws : list (string * V))
    (named extra : list (string * V))
    : outcome TypeError (list (string * V) * list (string * V)) :=
  match kws with
  | [] => Return (named, extra)
  | (k, v) :: kws' =>
      if decide (k ∈ named.*1) then Raise (MultipleValues k)
      else if decide (k ∈ name <$> parameters sig) then
        bind_keywords sig kws' (named ++ [(k, v)]) extra
      else
        match var_keyword sig with
        | None => Raise (UnexpectedKeyword k)
        | Some _ =>
            if decide (k ∈ extra.*1) then Raise (MultipleValues k)
            else bind_keywords sig kws' named (extra ++ [(k, v)])
        end
  end.

(** The first parameter without default that the call left unbound. *)
Definition missing (sig : signature) (named : list (string * V))
    : option string :=
  head (filter (λ n, n ∉ named.*1)
          (name <$> filter (λ p, has_default p = false) (parameters sig))).

Definition bind (sig : signature) (args : list V) (kws : list (string * V))
    : outcome TypeError bound_arguments :=
  let named := zip (name <$> positional_or_keyword sig) args in
  let rest := drop (length (positional_or_keyword sig)) args in
  match var_positional sig, rest with
  | None, _ :: _ => Raise TooManyPositional
  | _, _ =>
      match bind_keywords sig kws named [] with
      | Raise e => Raise e
      | Return (named, extra) =>
          match missing sig named with
          | Some p => Raise (MissingArgument p)
          | None =>
              Return {| arguments := named; varargs := rest; varkw := extra |}
          end
      end
  end.
End bind.

End Signature.

(** ** torch/onnx/_internal/fx/exporter.py *)

Module Exporter.
Import Signature.

(** [options.ExportOptions]: the four attributes the exporter sets and reads. *)
Record ExportOptions (DecompositionTable : Type) : Type := {
  opset_version : Z;
  use_binary_format : bool;
  decomposition_table : DecompositionTable;
  op_level_debug : bool;
}.
Global Arguments opset_version {_} _.
Global Arguments use_binary_format {_} _.
Global Arguments decomposition_table {_} _.
Global Arguments op_level_debug {_} _.

(** [fn: Union[torch.nn.Module, Callable]] *)
Inductive callable (Exn Obj NNModule : Type) : Type :=
| Module (m : NNModule)
| Callable (f : pyfun Exn Obj).
Global Arguments Module {Exn Obj NNModule} m.
Global Arguments Callable {Exn Obj NNModule} f.

(** The function object [functools.wraps(fn_call)(inner)]: it runs [inner]
    and carries [fn_call] as [__wrapped__], whose signature it shows. *)
Record wrapped_function (Exn Obj : Type) : Type := {
  __call__ : pyfun Exn Obj;
  __wrapped__ : pyfun Exn Obj;
}.
Global Arguments Build_wrapped_function {Exn Obj} _ _.
Global Arguments __call__ {Exn Obj} _.
Global Arguments __wrapped__ {Exn Obj} _.

(** What exporter.py imports from the host framework ([frontend], [passes],
    [options], [function_dispatcher], [_constants], [_pytree], [onnx]).  None
    of it is defined in exporter.py; each member is a deterministic call that
    returns or raises. *)
Class Framework : Type := {
  Obj : Type;
  Exn : Type;
  NNModule : Type;
  GraphModule : Type;
  DecompositionTable : Type;
  OnnxscriptGraph : Type;
  ModelProto : Type;
  Bytes : Type;
  TreeSpec : Type;
  (** [torch.nn.Module.forward] *)
  forward : NNModule → pyfun Exn Obj;
  (** [_pytree.tree_flatten]: the leaves and the structure *)
  tree_flatten : value Obj → list (value Obj) * TreeSpec;
  (** [function_dispatcher._ONNX_FRIENDLY_DECOMPOSITION_TABLE] *)
  _ONNX_FRIENDLY_DECOMPOSITION_TABLE : DecompositionTable;
  (** [_constants.ONNX_DEFAULT_OPSET] *)
  ONNX_DEFAULT_OPSET : Z;
  (** [options.ExportOptions()]: the attribute values before [update] *)
  ExportOptions_init : ExportOptions DecompositionTable;
  (** [frontend.DynamoExport(tracing_mode, aten_graph).trace(fn, *args)] *)
  DynamoExport_trace :
    string → bool → callable Exn Obj NNModule → list (value Obj) →
    outcome Exn GraphModule;
  (** [frontend.FxFrontendUnpackKwargs(frontend.DynamoOptimize(dynamic))
      .trace(fn, *args, **kwargs)]: the graph and the bound arguments *)
  FxFrontendUnpackKwargs_trace :
    bool → wrapped_function Exn Obj → list (value Obj) → kwargs Obj →
    outcome Exn (GraphModule * list (value Obj));
  (** [passes.Decompose(module, table).run], applied to the arguments *)
  Decompose_run :
    GraphModule → DecompositionTable → list (value Obj) →
    outcome Exn GraphModule;
  (** [passes.ShapeInferenceWithFakeTensor(module).run], applied to the
      arguments *)
  ShapeInferenceWithFakeTensor_run :
    GraphModule → list (value Obj) → outcome Exn GraphModule;
  (** [passes.export_fx_to_onnxscript(module, export_options)] *)
  export_fx_to_onnxscript :
    GraphModule → ExportOptions DecompositionTable →
    outcome Exn OnnxscriptGraph;
  (** [onnxscript_graph.to_model_proto(opset_version)] *)
  to_model_proto : OnnxscriptGraph → Z → outcome Exn ModelProto;
  (** [onnx_model.SerializeToString()] *)
  SerializeToString : ModelProto → outcome Exn Bytes;
}.

Section exporter.
Context `{FW : Framework}.

#[local] Abbreviation value := (Py.value Obj).
#[local] Abbreviation options := (ExportOptions DecompositionTable).

(** *** Instrumentation: the framework calls a run makes

    Every call into the framework is recorded with its arguments, together
    with whether it ran inside [torch.utils._mode_utils.no_dispatch()]. *)
Inductive call : Type :=
| CallDynamoExportTrace (tracing_mode : string) (aten_graph : bool)
    (fn : callable Exn Obj NNModule) (args : list value)
| CallUnpackKwargsTrace (dynamic : bool) (fn : wrapped_function Exn Obj)
    (args : list value) (kw : kwargs Obj)
| CallDecompose (module : GraphModule) (table : DecompositionTable)
    (args : list value)
| CallShapeInference (module : GraphModule) (args : list value)
| CallExportFxToOnnxscript (module : GraphModule) (export_options : options)
| CallToModelProto (onnxscript_graph : OnnxscriptGraph) (opset : Z)
| CallSerializeToString (onnx_model : ModelProto).

Record world : Type := {
  calls : list (bool * call);
  dispatch_disabled : bool;
}.

(** The exporter's computations: they read and extend the world, and return
    or raise. *)
Definition M (A : Type) : Type := world → outcome Exn A * world.

#[export] Instance M_ret : MRet M := λ A a w, (Return a, w).
#[export] Instance M_bind : MBind M := λ A B f m w,
  match m w with
  | (Return a, w') => f a w'
  | (Raise e, w') => (Raise e, w')
  end.

(** A framework call: log it, then return or raise what it does. *)
Definition invoke {A} (c : call) (r : outcome Exn A) : M A := λ w,
  (r, {| calls := calls w ++ [(dispatch_disabled w, c)];
         dispatch_disabled := dispatch_disabled w |}).

(** [with torch.utils._mode_utils.no_dispatch(): body]: dispatch is off in
    the body and back to what it was afterwards, also when the body raises;
    the exception goes on. *)
Definition no_dispatch {A} (body : M A) : M A := λ w,
  let '(r, w') :=
    body {| calls := calls w; dispatch_disabled := true |} in
  (r, {| calls := calls w'; dispatch_disabled := dispatch_disabled w |}).

(** *** [_export]

    The three functions are decorated with [_beartype.beartype], which
    checks arguments and result against the annotations at run time.  The
    parameters and results below have the annotated types, so the decorator
    has nothing to refuse and is left out. *)

(** The keyword arguments of a call of [_export]. *)
Record export_kwargs : Type := {
  kw_opset_version : option Z;
  kw_decomposition_table : option DecompositionTable;
  kw_use_binary_format : option bool;
  kw_op_level_debug : option bool;
}.

(** [export_options.update] with the keywords of the call: every keyword
    given replaces the attribute of its name. *)
Definition update (o : options) (kw : export_kwargs) : options :=
  {| opset_version := default (opset_version o) (kw_opset_version kw);
     use_binary_format :=
       default (use_binary_format o) (kw_use_binary_format kw);
     decomposition_table :=
       default (decomposition_table o) (kw_decomposition_table kw);
     op_level_debug := default (op_level_debug o) (kw_op_level_debug kw) |}.

(** [Union["onnx.ModelProto", bytes]] *)
Inductive export_output : Type :=
| AsModelProto (onnx_model : ModelProto)
| AsBytes (serialized : Bytes).

Definition _export (module : GraphModule) (args : list value)
    (kw : export_kwargs) : M export_output :=
  let export_options := update ExportOptions_init kw in
  decomposed_module ←
    invoke
      (CallDecompose module (decomposition_table export_options) args)
      (Decompose_run module (decomposition_table export_options) args);
  decomposed_module ←
    invoke (CallShapeInference decomposed_module args)
      (ShapeInferenceWithFakeTensor_run decomposed_module args);
  onnxscript_graph ←
    no_dispatch
      (invoke (CallExportFxToOnnxscript decomposed_module export_options)
         (export_fx_to_onnxscript decomposed_module export_options));
  onnx_model ←
    invoke
      (CallToModelProto onnxscript_graph (opset_version export_options))
      (to_model_proto onnxscript_graph (opset_version export_options));
  if use_binary_format export_options then
    serialized ←
      invoke (CallSerializeToString onnx_model)
        (SerializeToString onnx_model);
    mret (AsBytes serialized)
  else mret (AsModelProto onnx_model).

(** *** [export] *)

(** What a call passes for a keyword-only parameter it leaves out. *)
Definition default_use_binary_format : bool := true.
Definition default_opset_version : Z := ONNX_DEFAULT_OPSET.
Definition default_op_level_debug : bool := false.

Definition export (fn : callable Exn Obj NNModule) (args : list value)
    (use_binary_format : bool) (opset_version : Z) (op_level_debug : bool)
    : M export_output :=
  graph_module ←
    invoke (CallDynamoExportTrace "real" true fn args)
      (DynamoExport_trace "real" true fn args);
  _export graph_module args
    {| kw_opset_version := Some opset_version;
       kw_decomposition_table := Some _ONNX_FRIENDLY_DECOMPOSITION_TABLE;
       kw_use_binary_format := Some use_binary_format;
       kw_op_level_debug := Some op_level_debug |}.

(** *** [export_after_normalizing_args_and_kwargs] *)

(** [fn.forward if isinstance(fn, torch.nn.Module) else fn] *)
Definition fn_call (fn : callable Exn Obj NNModule) : pyfun Exn Obj :=
  match fn with
  | Module m => forward m
  | Callable f => f
  end.

(** The nested [inner]: call [fn_call], flatten what it returns and return
    the list of leaves. *)
Definition inner (fn_call : pyfun Exn Obj) : pyfun Exn Obj := λ args kw,
  match fn_call args kw with
  | Return out => let '(result, _) := tree_flatten out in Return (VList result)
  | Raise e => Raise e
  end.

Definition wrapper (fn : callable Exn Obj NNModule)
    : wrapped_function Exn Obj :=
  let fn_call := fn_call fn in
  {| __call__ := inner fn_call; __wrapped__ := fn_call |}.

Definition export_after_normalizing_args_and_kwargs
    (fn : callable Exn Obj NNModule) (args : list value)
    (use_binary_format : bool) (opset_version : Z) (op_level_debug : bool)
    (kw : kwargs Obj) : M export_output :=
  let wrapped_fn := wrapper fn in
  '(captured_graph, bound_args) ←
    invoke (CallUnpackKwargsTrace false wrapped_fn args kw)
      (FxFrontendUnpackKwargs_trace false wrapped_fn args kw);
  _export captured_graph
    (filter (λ arg, arg ≠ VNone) bound_args)
    {| kw_opset_version := Some opset_version;
       kw_decomposition_table := Some _ONNX_FRIENDLY_DECOMPOSITION_TABLE;
       kw_use_binary_format := Some use_binary_format;
       kw_op_level_debug := Some op_level_debug |}.

(** *** The pipeline in the words of the specification

    Trace, decompose, infer shapes, build the onnxscript graph, convert it to
    a ModelProto; each step runs on what the step before returned, and the
    steps after one that raises are not run.  [d] is whether dispatch was
    already off when the exporter was entered. *)

Definition export_options_of (use_binary_format : bool) (opset_version : Z)
    (op_level_debug : bool) : options :=
  {| opset_version := opset_version;
     use_binary_format := use_binary_format;
     decomposition_table := _ONNX_FRIENDLY_DECOMPOSITION_TABLE;
     op_level_debug := op_level_debug |}.

Definition spec_lowering_steps (d : bool) (graph_module : GraphModule)
    (args : list value) (ubf : bool) (opset : Z) (dbg : bool)
    : list (bool * call) :=
  let table := _ONNX_FRIENDLY_DECOMPOSITION_TABLE in
  let opts := export_options_of ubf opset dbg in
  (d, CallDecompose graph_module table args) ::
  match Decompose_run graph_module table args with
  | Raise _ => []
  | Return dm =>
    (d, CallShapeInference dm args) ::
    match ShapeInferenceWithFakeTensor_run dm args with
    | Raise _ => []
    | Return dm' =>
      (true, CallExportFxToOnnxscript dm' opts) ::
      match export_fx_to_onnxscript dm' opts with
      | Raise _ => []
      | Return g =>
        (d, CallToModelProto g opset) ::
        match to_model_proto g opset with
        | Raise _ => []
        | Return m => if ubf then [(d, CallSerializeToString m)] else []
        end
      end
    end
  end.

Definition spec_export_steps (d : bool) (fn : callable Exn Obj NNModule)
    (args : list value) (ubf : bool) (opset : Z) (dbg : bool)
    : list (bool * call) :=
  (d, CallDynamoExportTrace "real" true fn args) ::
  match DynamoExport_trace "real" true fn args with
  | Raise _ => []
  | Return gm => spec_lowering_steps d gm args ubf opset dbg
  end.

(** The same for [export_after_normalizing_args_and_kwargs]: the wrapper is
    traced with the arguments and keyword arguments of the call, and the
    graph is lowered with the bound arguments that are not None. *)
Definition spec_normalizing_export_steps (d : bool)
    (fn : callable Exn Obj NNModule) (args : list value) (kw : kwargs Obj)
    (ubf : bool) (opset : Z) (dbg : bool) : list (bool * call) :=
  (d, CallUnpackKwargsTrace false (wrapper fn) args kw) ::
  match FxFrontendUnpackKwargs_trace false (wrapper fn) args kw with
  | Raise _ => []
  | Return (captured_graph, bound_args) =>
      spec_lowering_steps d captured_graph
        (filter (λ arg, arg ≠ VNone) bound_args) ubf opset dbg
  end.

(** The exception a recorded call raised, if it raised: the framework member
    applied to the recorded arguments. *)
Definition raised_by (c : call) : option Exn :=
  let exn {A} (r : outcome Exn A) : option Exn :=
    match r with Return _ => None | Raise e => Some e end in
  match c with
  | CallDynamoExportTrace mode aten fn args =>
      exn (DynamoExport_trace mode aten fn args)
  | CallUnpackKwargsTrace dynamic fn args kw =>
      exn (FxFrontendUnpackKwargs_trace dynamic fn args kw)
  | CallDecompose module table args => exn (Decompose_run module table args)
  | CallShapeInference module args =>
      exn (ShapeInferenceWithFakeTensor_run module args)
  | CallExportFxToOnnxscript module opts =>
      exn (export_fx_to_onnxscript module opts)
  | CallToModelProto g opset => exn (to_model_proto g opset)
  | CallSerializeToString m => exn (SerializeToString m)
  end.

(** What a call that returns hands back: the ModelProto some
    [to_model_proto] at the requested opset produced, serialized when
    [use_binary_format] is true and as it is otherwise. *)
Definition spec_output (ubf : bool) (opset : Z) (out : export_output)
    : Prop :=
  ∃ g m, to_model_proto g opset = Return m ∧
    if ubf then ∃ b, SerializeToString m = Return b ∧ out = AsBytes b
    else out = AsModelProto m.

End exporter.

(** *** The signatures of the two entry points

    [def export(fn, *args, use_binary_format=True,
                opset_version=ONNX_DEFAULT_OPSET, op_level_debug=False)] and
    [def export_after_normalizing_args_and_kwargs(fn, *args,
                use_binary_format=True, opset_version=ONNX_DEFAULT_OPSET,
                op_level_debug=False, **kwargs)]. *)

Definition option_names : list string :=
  ["use_binary_format"; "opset_version"; "op_level_debug"].

Definition export_signature : signature := {|
  positional_or_keyword := [ {| name := "fn"; has_default := false |} ];
  var_positional := Some "args";
  keyword_only :=
    [ {| name := "use_binary_format"; has_default := true |};
      {| name := "opset_version"; has_default := true |};
      {| name := "op_level_debug"; has_default := true |} ];
  var_keyword := None;
|}.

Definition export_after_normalizing_args_and_kwargs_signature
    : signature := {|
  positional_or_keyword := [ {| name := "fn"; has_default := false |} ];
  var_positional := Some "args";
  keyword_only :=
    [ {| name := "use_binary_format"; has_default := true |};
      {| name := "opset_version"; has_default := true |};
      {| name := "op_level_debug"; has_default := true |} ];
  var_keyword := Some "kwargs";
|}.

(** *** A small framework to run the exporter on

    Graphs are the list of the passes that produced them, a model is a graph
    with its opset, flattening collects the leaves of nested lists and
    tuples, and an opset below 1 is refused by [to_model_proto]. *)

Fixpoint toy_leaves (v : value nat) : list (value nat) :=
  match v with
  | VList l | VTuple l =>
      (fix go (l : list (value nat)) : list (value nat) :=
         match l with
         | [] => []
         | x :: l' => toy_leaves x ++ go l'
         end) l
  | _ => [v]
  end.

Definition toy_to_model_proto (g : list string) (opset : Z)
    : outcome string (list string * Z) :=
  if (opset <? 1)%Z then Raise "unsupported opset" else Return (g, opset).

Definition toy : Framework := {|
  Obj := nat;
  Exn := string;
  NNModule := nat;
  GraphModule := list string;
  DecompositionTable := nat;
  OnnxscriptGraph := list string;
  ModelProto := list string * Z;
  Bytes := list string;
  TreeSpec := unit;
  forward := λ m args kw, Return (VTuple (VInt (Z.of_nat m) :: args));
  tree_flatten := λ v, (toy_leaves v, tt);
  _ONNX_FRIENDLY_DECOMPOSITION_TABLE := 7;
  ONNX_DEFAULT_OPSET := 18%Z;
  ExportOptions_init :=
    {| opset_version := 18%Z; use_binary_format := true;
       decomposition_table := 7; op_level_debug := false |};
  DynamoExport_trace := λ mode aten fn args, Return ["dynamo_export"];
  FxFrontendUnpackKwargs_trace := λ dynamic fn args kw,
    Return (["dynamo_optimize"], args ++ kw.*2);
  Decompose_run := λ m table args, Return (m ++ ["decompose"]);
  ShapeInferenceWithFakeTensor_run := λ m args, Return (m ++ ["shapes"]);
  export_fx_to_onnxscript := λ m opts, Return (m ++ ["onnxscript"]);
  to_model_proto := toy_to_model_proto;
  SerializeToString := λ m, Return (m.1 ++ ["bytes"]);
|}.

Definition toy_world : @world toy :=
  {| calls := []; dispatch_disabled := false |}.

(** A callable that returns its positional arguments as a list, paired with
    the values of its keyword arguments as a tuple. *)
Definition toy_fn : callable string nat nat :=
  Callable (λ args kw, Return (VTuple [VList args; VTuple kw.*2])).

End Exporter.

(** ** test/distributed/fsdp/test_fsdp_hybrid_shard.py *)

Module HybridShardTest.

(** What ends a run of the test module's code early. *)
Inductive exn (E : Type) : Type :=
| NameError (name : string)
| AttributeError (name : string)
| AssertionError
| SystemExit (code : Z)
| SkipTest
| FrameworkError (e : E).
Global Arguments NameError {E} name.
Global Arguments AttributeError {E} name.
Global Arguments AssertionError {E}.
Global Arguments SystemExit {E} code.
Global Arguments SkipTest {E}.
Global Arguments FrameworkError {E} e.

(** The keyword arguments the test builds for the wrapper (lines 96-100). *)
Record fsdp_kwargs (Policy ShardingStrategy : Type) : Type := {
  auto_wrap_policy : Policy;
  device_id : Z;
  kw_sharding_strategy : ShardingStrategy;
}.
Global Arguments auto_wrap_policy {_ _} _.
Global Arguments device_id {_ _} _.
Global Arguments kw_sharding_strategy {_ _} _.

(** The statements at the top of the module. *)
Inductive toplevel : Type :=
(** [import a.b.c] and [import a.b.c as name] *)
| Import (module : string) (asname : option string)
(** [from module import name, name as alias, ...] *)
| FromImport (module : string) (names : list (string * option string))
(** [if cond: sys.exit(code)] *)
| ExitIf (cond : bool) (code : Z)
(** [def name] and [class name] *)
| Def (name : string)
| ClassDef (name : string)
(** an expression statement that binds nothing *)
| Expr.

(** What the test module imports from the host framework.  A framework call
    sees the attributes of [torch.distributed] (it calls the collectives
    bound there) and the framework's own state; it returns or raises.  The
    test module's globals are out of its reach. *)
Class Framework : Type := {
  Obj : Type;
  E : Type;
  FwState : Type;
  ShardingStrategy : Type;
  Policy : Type;
  ProcessGroup : Type;
  Model : Type;
  FSDPModule : Type;
  Tensor : Type;
  fw (A : Type) : Type :=
    gmap string (value Obj) → FwState → outcome E A * FwState;
  (** the object a qualified name denotes: an imported module or attribute,
      a builtin, a function or class the test module defines *)
  resolve : string → Obj;
  (** what running an [import], a [def] with its decorators, a [class]
      statement or an expression statement at the top of the module raises
      in the host, if it raises there (an import that fails, a decorator or
      a call that raises) *)
  toplevel_raises : toplevel → option E;
  (** [dist.is_available()] and [TEST_WITH_DEV_DBG_ASAN] at import time *)
  dist_is_available : bool;
  TEST_WITH_DEV_DBG_ASAN : bool;
  (** [torch.cuda.device_count()] *)
  device_count : FwState → nat;
  (** [ShardingStrategy.HYBRID_SHARD] and [==] on the enumeration *)
  HYBRID_SHARD : ShardingStrategy;
  ShardingStrategy_eq_dec :: EqDecision ShardingStrategy;
  (** [functools.partial(transformer_auto_wrap_policy,
       transformer_layer_cls={...})] *)
  partial_transformer_auto_wrap_policy : list (value Obj) → Policy;
  (** [torch.cuda.current_device()] *)
  current_device : fw Z;
  (** [dist.distributed_c10d._get_default_group()] *)
  _get_default_group : fw ProcessGroup;
  (** [TransformerWithSharedParams.init(group, FSDPInitMode.RECURSIVE,
       CUDAInitMode.CUDA_BEFORE, fsdp_kwargs)] *)
  TransformerWithSharedParams_init :
    ProcessGroup → fsdp_kwargs Policy ShardingStrategy → fw Model;
  (** [FullyShardedDataParallel.fsdp_modules(model)] *)
  fsdp_modules : Model → list FSDPModule;
  (** the attributes [sharding_strategy] and [_inter_node_pg] *)
  sharding_strategy : FSDPModule → ShardingStrategy;
  _inter_node_pg : FSDPModule → ProcessGroup;
  (** [dist.get_rank(group)] and [dist.get_world_size(group)] *)
  get_rank : ProcessGroup → fw nat;
  get_world_size : ProcessGroup → fw nat;
  (** [_rank_not_in_group(rank, group)], called as lines 115 and 117
      write it *)
  _rank_not_in_group : nat → ProcessGroup → fw bool;
  (** the function object that [def patched_allreduce] makes, closed over
      [orig_ar] *)
  def_patched_allreduce : value Obj → Obj;
  (** [fsdp_model.get_input()], [fsdp_model(inp)],
      [fsdp_model.get_loss(inp, out)], [loss.backward()] *)
  get_input : Model → fw Tensor;
  forward : Model → Tensor → fw Tensor;
  get_loss : Model → Tensor → Tensor → fw Tensor;
  backward : Tensor → fw unit;
}.

Section test.
Context `{FW : Framework}.

#[local] Abbreviation value := (Py.value Obj).

(** *** State and computations *)

Record state : Type := {
  (** the attributes of the module [torch.distributed] *)
  dist : gmap string value;
  (** the globals of the test module *)
  globals : gmap string value;
  (** the framework's own state *)
  framework : FwState;
  (** how many [self.assert...] calls were evaluated *)
  assertions : nat;
}.

Definition T (A : Type) : Type := state → outcome (exn E) A * state.

#[export] Instance T_ret : MRet T := λ A a s, (Return a, s).
#[export] Instance T_bind : MBind T := λ A B f m s,
  match m s with
  | (Return a, s') => f a s'
  | (Raise e, s') => (Raise e, s')
  end.

Definition raise {A} (e : exn E) : T A := λ s, (Raise e, s).

(** A framework call, made from the test. *)
Definition call {A} (f : fw A) : T A := λ s,
  let '(r, st) := f (dist s) (framework s) in
  (match r with Return a => Return a | Raise e => Raise (FrameworkError e) end,
   {| dist := dist s; globals := globals s; framework := st;
      assertions := assertions s |}).

(** [dist.<name>] and [dist.<name> = v] *)
Definition getattr_dist (name : string) : T value := λ s,
  match dist s !! name with
  | Some v => (Return v, s)
  | None => (Raise (AttributeError name), s)
  end.

Definition set_dist (name : string) (v : value) (s : state) : state :=
  {| dist := <[name := v]> (dist s); globals := globals s;
     framework := framework s; assertions := assertions s |}.

Definition setattr_dist (name : string) (v : value) : T unit := λ s,
  (Return (), set_dist name v s).

(** The names of Python's builtin functions. *)
Definition builtins : list string :=
  [ "abs"; "aiter"; "all"; "anext"; "any"; "ascii"; "bin"; "bool";
    "breakpoint"; "bytearray"; "bytes"; "callable"; "chr"; "classmethod";
    "compile"; "complex"; "delattr"; "dict"; "dir"; "divmod"; "enumerate";
    "eval"; "exec"; "filter"; "float"; "format"; "frozenset"; "getattr";
    "globals"; "hasattr"; "hash"; "help"; "hex"; "id"; "input"; "int";
    "isinstance"; "issubclass"; "iter"; "len"; "list"; "locals"; "map";
    "max"; "memoryview"; "min"; "next"; "object"; "oct"; "open"; "ord";
    "pow"; "print"; "property"; "range"; "repr"; "reversed"; "round";
    "set"; "setattr"; "slice"; "sorted"; "staticmethod"; "str"; "sum";
    "super"; "tuple"; "type"; "vars"; "zip"; "__import__" ].

(** Reading a name that is not local to the function: the module's globals,
    then the builtins, else NameError. *)
Definition load_name (name : string) : T value := λ s,
  match globals s !! name with
  | Some v => (Return v, s)
  | None =>
      if decide (name ∈ builtins)
      then (Return (VObj (resolve ("builtins." +:+ name))), s)
      else (Raise (NameError name), s)
  end.

(** [global name; name = v] *)
Definition set_global (name : string) (v : value) (s : state) : state :=
  {| dist := dist s; globals := <[name := v]> (globals s);
     framework := framework s; assertions := assertions s |}.

Definition store_global (name : string) (v : value) : T unit := λ s,
  (Return (), set_global name v s).

(** [try: body finally: cleanup]: the cleanup runs however the body ends;
    the body's exception goes on unless the cleanup raises one itself. *)
Definition try_finally {A} (body : T A) (cleanup : T unit) : T A := λ s,
  let '(r, s1) := body s in
  match cleanup s1 with
  | (Return _, s2) => (r, s2)
  | (Raise e, s2) => (Raise e, s2)
  end.

(** *** The context managers

    A [@contextlib.contextmanager] generator takes the block of the [with]
    statement where it yields: what stands before [try] runs on entry, the
    block runs at the [yield], and an exception of the block is raised
    there, inside the [try]. *)

Definition patch_reduce_scatter (new_reduce_scatter : value)
    (full_precision_param_dtype : value) {A} (block : T A) : T A :=
  orig_reduce_scatter ← getattr_dist "_reduce_scatter_base";
  setattr_dist "_reduce_scatter_base" new_reduce_scatter;;
  store_global "_CURRENT_FULL_PRECISION_PARAM_DTYPE"
    full_precision_param_dtype;;
  try_finally block
    (setattr_dist "_reduce_scatter_base" orig_reduce_scatter;;
     store_global "_CURRENT_FULL_PRECISION_PARAM_DTYPE" VNone).

Definition patch_allreduce (new_allreduce : value) {A} (block : T A)
    : T A :=
  orig_ar ← getattr_dist "all_reduce";
  setattr_dist "all_reduce" new_allreduce;;
  try_finally block (setattr_dist "all_reduce" orig_ar).

(** *** Running the statements at the top of the module *)

(** [import a.b.c] binds the name of the top package, [a]. *)
Fixpoint top_package (dotted : string) : string :=
  match dotted with
  | EmptyString => EmptyString
  | String c rest =>
      if Ascii.eqb c "."%char then EmptyString
      else String c (top_package rest)
  end.

Definition bind_from (module : string) (item : string * option string)
    (g : gmap string value) : gmap string value :=
  <[default item.1 item.2 := VObj (resolve (module +:+ "." +:+ item.1))]> g.

(** The names a statement binds once it has run. *)
Definition bind_toplevel (stmt : toplevel) (g : gmap string value)
    : gmap string value :=
  match stmt with
  | Import module None =>
      <[top_package module := VObj (resolve (top_package module))]> g
  | Import module (Some name) => <[name := VObj (resolve module)]> g
  | FromImport module names =>
      foldl (λ g item, bind_from module item g) g names
  | Def name | ClassDef name =>
      <[name := VObj (resolve ("__main__." +:+ name))]> g
  | ExitIf _ _ | Expr => g
  end.

(** An exit guard ends the module with SystemExit when its condition
    holds; any other statement runs in the host, where it may raise, and
    binds its names when it does not. *)
Definition exec_toplevel (stmt : toplevel) (g : gmap string value)
    : outcome (exn E) (gmap string value) :=
  match stmt with
  | ExitIf cond code => if cond then Raise (SystemExit code) else Return g
  | _ =>
      match toplevel_raises stmt with
      | Some e => Raise (FrameworkError e)
      | None => Return (bind_toplevel stmt g)
      end
  end.

Fixpoint exec_module (stmts : list toplevel) (g : gmap string value)
    : outcome (exn E) (gmap string value) :=
  match stmts with
  | [] => Return g
  | stmt :: stmts' =>
      match exec_toplevel stmt g with
      | Return g' => exec_module stmts' g'
      | Raise e => Raise e
      end
  end.

(** The names a statement binds. *)
Definition bound_names (stmt : toplevel) : list string :=
  match stmt with
  | Import module None => [top_package module]
  | Import module (Some name) => [name]
  | FromImport module names => (λ item, default item.1 item.2) <$> names
  | Def name | ClassDef name => [name]
  | ExitIf _ _ | Expr => []
  end.

(** Lines 3-132 of test_fsdp_hybrid_shard.py. *)
Definition module_body : list toplevel :=
  [ FromImport "copy" [("deepcopy", None)];
    Import "functools" None;
    Import "sys" None;
    FromImport "collections" [("namedtuple", None)];
    FromImport "contextlib" [("suppress", None)];
    Import "contextlib" None;
    Import "torch" None;
    Import "torch.distributed" (Some "dist");
    Import "torch.nn" (Some "nn");
    FromImport "torch.distributed.fsdp" [("FlatParameter", None)];
    FromImport "torch.distributed.fsdp"
      [("FullyShardedDataParallel", Some "FSDP")];
    FromImport "torch.distributed.fsdp"
      [("ShardingStrategy", None); ("CPUOffload", None)];
    FromImport "torch.distributed.fsdp.wrap"
      [("always_wrap_policy", None); ("transformer_auto_wrap_policy", None)];
    FromImport "torch.nn"
      [("TransformerDecoderLayer", None); ("TransformerEncoderLayer", None)];
    FromImport "torch.testing._internal.common_distributed"
      [("skip_if_lt_x_gpu", None)];
    FromImport "torch.testing._internal.common_fsdp"
      [("CUDAInitMode", None); ("FSDPInitMode", None); ("FSDPTest", None);
       ("NestedWrappedModule", None); ("TransformerWithSharedParams", None);
       ("_assert_module_states", None)];
    FromImport "torch.testing._internal.common_utils"
      [("TEST_WITH_DEV_DBG_ASAN", None);
       ("instantiate_parametrized_tests", None); ("parametrize", None);
       ("run_tests", None)];
    FromImport "torch.distributed.distributed_c10d"
      [("_rank_not_in_group", None)];
    ExitIf (negb dist_is_available) 0;
    ExitIf TEST_WITH_DEV_DBG_ASAN 0;
    Def "patch_reduce_scatter";
    Def "patch_allreduce";
    ClassDef "TestFSDPHybridShard";
    Expr ].

(** The statements that run before the first exit guard (the imports of
    lines 3-37) and those that run after the last (lines 50-132). *)
Fixpoint before_guards (stmts : list toplevel) : list toplevel :=
  match stmts with
  | [] => []
  | ExitIf _ _ :: _ => []
  | stmt :: stmts' => stmt :: before_guards stmts'
  end.

Definition after_guards (stmts : list toplevel) : list toplevel :=
  reverse (before_guards (reverse stmts)).

(** What the first of [stmts] that raises in the host raises. *)
Definition first_raise (stmts : list toplevel) : option E :=
  head (omap toplevel_raises stmts).

(** The names a fresh module has before its first statement runs. *)
Definition fresh_globals : gmap string value :=
  list_to_map
    ((λ name, (name, VObj (resolve ("__main__." +:+ name)))) <$>
       ["__name__"; "__doc__"; "__package__"; "__loader__"; "__spec__";
        "__file__"; "__builtins__"]).

Definition load_module : outcome (exn E) (gmap string value) :=
  exec_module module_body fresh_globals.

(** The globals once the module has run to its end (empty when it exits
    before). *)
Definition module_globals : gmap string value :=
  match load_module with Return g => g | Raise _ => ∅ end.

(** *** [TestFSDPHybridShard] *)

Definition assert_ (holds : bool) : T unit := λ s,
  (if holds then Return () else Raise AssertionError,
   {| dist := dist s; globals := globals s; framework := framework s;
      assertions := S (assertions s) |}).

(** [for x in xs: body x] *)
Fixpoint for_each {A} (xs : list A) (body : A → T unit) : T unit :=
  match xs with
  | [] => mret ()
  | x :: xs' => body x;; for_each xs' body
  end.

(** The property [process_group] (lines 84-86). *)
Definition process_group : T ProcessGroup :=
  _ ← load_name "dist";
  call _get_default_group.

(** Lines 92-106: what the test sets up, down to the wrapped model. *)
Definition setup : T Model :=
  _ ← load_name "functools";
  _ ← load_name "transformer_auto_wrap_policy";
  encoder ← load_name "TransformerEncoderLayer";
  decoder ← load_name "TransformerDecoderLayer";
  let auto_wrap_policy :=
    partial_transformer_auto_wrap_policy [encoder; decoder] in
  _ ← load_name "torch";
  device ← call current_device;
  _ ← load_name "ShardingStrategy";
  let fsdp_kwargs :=
    {| auto_wrap_policy := auto_wrap_policy;
       device_id := device;
       kw_sharding_strategy := HYBRID_SHARD |} in
  _ ← load_name "TransformerWithSharedParams";
  group ← process_group;
  _ ← load_name "FSDPInitMode";
  _ ← load_name "CUDAInitMode";
  call (TransformerWithSharedParams_init group fsdp_kwargs).

(** Lines 112-117: the process group of one wrapped module. *)
Definition check_inter_node_pg (fsdp_module : FSDPModule) : T unit :=
  let inter_node_pg := _inter_node_pg fsdp_module in
  _ ← load_name "dist";
  group ← process_group;
  my_rank ← call (get_rank group);
  _ ← load_name "range";
  _ ← load_name "dist";
  group ← process_group;
  world_size ← call (get_world_size group);
  let other_ranks := filter (λ i, i ≠ my_rank) (seq 0 world_size) in
  _ ← load_name "_rank_not_in_group";
  not_in_group ← call (_rank_not_in_group my_rank inter_node_pg);
  assert_ (negb not_in_group);;
  for_each other_ranks (λ r,
    _ ← load_name "_rank_not_in_group";
    not_in_group ← call (_rank_not_in_group r inter_node_pg);
    assert_ not_in_group).

(** Lines 109-117: the body of the loop over the wrapped modules. *)
Definition check_module (fsdp_module : FSDPModule) : T unit :=
  _ ← load_name "ShardingStrategy";
  assert_ (bool_decide (HYBRID_SHARD = sharding_strategy fsdp_module));;
  check_inter_node_pg fsdp_module.

(** Lines 108-128, from the wrapped model on. *)
Definition checks (fsdp_model : Model) : T unit :=
  _ ← load_name "FullyShardedDataParallel";
  for_each (fsdp_modules fsdp_model) check_module;;
  _ ← load_name "dist";
  orig_ar ← getattr_dist "all_reduce";
  let patched_allreduce := VObj (def_patched_allreduce orig_ar) in
  _ ← load_name "patch_allreduce";
  patch_allreduce patched_allreduce
    (inp ← call (get_input fsdp_model);
     out ← call (forward fsdp_model inp);
     loss ← call (get_loss fsdp_model inp out);
     call (backward loss)).

(** Modelled from the spec: [skip_if_lt_x_gpu]
    (torch.testing._internal.common_distributed, not in this excerpt), the
    GPU precondition of the test: with fewer than [x] devices the test is
    skipped, otherwise it runs. *)
Definition skip_if_lt_x_gpu (x : nat) {A} (test : T A) : T A := λ s,
  if decide (x ≤ device_count (framework s))%nat then test s
  else (Raise SkipTest, s).

Definition test_fsdp_hybrid_shard_basic_setup : T unit :=
  skip_if_lt_x_gpu 2 (fsdp_model ← setup; checks fsdp_model).

End test.

End HybridShardTest.

(** ** The data-parallel wrapper under hybrid sharding *)

Module FSDPModel.

(** Modelled from the spec: the workers of a job and the inter-node process
    group of hybrid sharding ([torch.distributed.fsdp], not in this
    excerpt).  [world_size] workers run on nodes of [devices_per_node]
    workers each; ranks are given node by node, so a worker's position on
    its node is its rank modulo [devices_per_node].  The peers designated
    at a rank's position are the workers at that position, one per node. *)
Record topology : Type := {
  world_size : nat;
  devices_per_node : nat;
}.

Definition position (t : topology) (rank : nat) : nat :=
  rank mod devices_per_node t.

Definition num_nodes (t : topology) : nat :=
  world_size t / devices_per_node t.


(** Modelled from the spec: the inter-node process group a rank gets, built
    by taking on every node the worker at the rank's position. *)
Definition inter_node_ranks (t : topology) (rank : nat) : list nat :=
  (λ node, node * devices_per_node t + position t rank) <$>
    seq 0 (num_nodes t).

(** Modelled from the spec: [_rank_not_in_group(rank, group)]
    ([torch.distributed.distributed_c10d], not in this excerpt), with a
    process group as the list of its members. *)
Definition rank_not_in_group (rank : nat) (group : list nat) : bool :=
  bool_decide (rank ∉ group).

(** Modelled from the spec: the sharding strategies of the wrapper. *)
Inductive sharding : Type :=
| FULL_SHARD
| SHARD_GRAD_OP
| NO_SHARD
| HYBRID_SHARD.

#[global] Instance sharding_eq_dec : EqDecision sharding.
Proof. solve_decision. Defined.

(** Modelled from the spec: a model before wrapping ([torch.nn.Module], not
    in this excerpt), as the tree of its modules, each of some class. *)
#[warnings="-register-all"]
Inductive nn_module : Type :=
| NN (cls : string) (children : list nn_module).

(** Modelled from the spec: the attributes of a wrapper instance that the
    test reads ([FullyShardedDataParallel], not in this excerpt). *)
Record fsdp_module : Type := {
  sharding_strategy : sharding;
  _inter_node_pg : list nat;
  fsdp_device_id : Z;
}.

(** Modelled from the spec: a model after wrapping; some of its modules are
    inside a wrapper instance. *)
#[warnings="-register-all"]
Inductive wrapped : Type :=
| Plain (cls : string) (children : list wrapped)
| FSDP (attrs : fsdp_module) (inner : wrapped).

(** Modelled from the spec: wrapping with an auto-wrap policy (the FSDP
    constructor and its recursive wrapping, not in this excerpt).  The
    specification has no words on how nested wrappers are made; the model
    takes what the test says and checks of them (its docstring, lines 90-91:
    the policy hands the constructor's arguments on to all nested
    instances; lines 108-117 read the same attributes on every instance):
    the transformer policy wraps the modules whose class is one of
    [transformer_layer_cls]; every wrapper the constructor makes on the way
    gets the keyword arguments of the constructor call, here [attrs]; the
    module the constructor is called on is wrapped last, by the
    constructor itself. *)
Fixpoint recursive_wrap (transformer_layer_cls : list string)
    (attrs : fsdp_module) (only_wrap_children : bool) (m : nn_module)
    : wrapped :=
  match m with
  | NN cls children =>
      let inner :=
        Plain cls
          (recursive_wrap transformer_layer_cls attrs false <$> children) in
      if negb only_wrap_children && bool_decide (cls ∈ transformer_layer_cls)
      then FSDP attrs inner
      else inner
  end.

Definition FullyShardedDataParallel (transformer_layer_cls : list string)
    (attrs : fsdp_module) (m : nn_module) : wrapped :=
  FSDP attrs (recursive_wrap transformer_layer_cls attrs true m).

(** Modelled from the spec: [FullyShardedDataParallel.fsdp_modules], the
    wrapper instances of a wrapped model, outermost first. *)
Fixpoint fsdp_modules (w : wrapped) : list fsdp_module :=
  match w with
  | Plain _ children => mjoin (fsdp_modules <$> children)
  | FSDP attrs inner => attrs :: fsdp_modules inner
  end.

(** Modelled from the spec: the attributes the constructor gives a wrapper
    on the worker of rank [rank]: the strategy and device of the call, and
    the inter-node group of the rank. *)
Definition attrs_of (t : topology) (rank : nat) (strategy : sharding)
    (device : Z) : fsdp_module :=
  {| sharding_strategy := strategy;
     _inter_node_pg := inter_node_ranks t rank;
     fsdp_device_id := device |}.

(** The classes named by the class objects of a policy. *)
Definition class_names (classes : list (value string)) : list string :=
  omap (λ v, match v with VObj name => Some name | _ => None end) classes.

(** Modelled from the spec: the framework as one worker of a job sees it.
    The worker has rank [rank] among the workers of [t], the default group
    holds all workers, and the model the test wraps is [model]. *)
Definition worker (t : topology) (rank : nat) (model : nn_module)
    : HybridShardTest.Framework := {|
  HybridShardTest.Obj := string;
  HybridShardTest.E := string;
  HybridShardTest.FwState := unit;
  HybridShardTest.ShardingStrategy := sharding;
  HybridShardTest.Policy := list string;
  HybridShardTest.ProcessGroup := list nat;
  HybridShardTest.Model := wrapped;
  HybridShardTest.FSDPModule := fsdp_module;
  HybridShardTest.Tensor := unit;
  HybridShardTest.resolve := id;
  HybridShardTest.toplevel_raises := λ _, None;
  HybridShardTest.dist_is_available := true;
  HybridShardTest.TEST_WITH_DEV_DBG_ASAN := false;
  HybridShardTest.device_count := λ _, devices_per_node t;
  HybridShardTest.HYBRID_SHARD := HYBRID_SHARD;
  HybridShardTest.ShardingStrategy_eq_dec := sharding_eq_dec;
  HybridShardTest.partial_transformer_auto_wrap_policy := class_names;
  HybridShardTest.current_device := λ _ st,
    (Return (Z.of_nat (position t rank)), st);
  HybridShardTest._get_default_group := λ _ st,
    (Return (seq 0 (world_size t)), st);
  HybridShardTest.TransformerWithSharedParams_init := λ group kw _ st,
    (Return
       (FullyShardedDataParallel (HybridShardTest.auto_wrap_policy kw)
          (attrs_of t rank (HybridShardTest.kw_sharding_strategy kw)
             (HybridShardTest.device_id kw))
          model),
     st);
  HybridShardTest.fsdp_modules := fsdp_modules;
  HybridShardTest.sharding_strategy := sharding_strategy;
  HybridShardTest._inter_node_pg := _inter_node_pg;
  HybridShardTest.get_rank := λ group _ st, (Return rank, st);
  HybridShardTest.get_world_size := λ group _ st, (Return (length group), st);
  HybridShardTest._rank_not_in_group := λ r group _ st,
    (Return (rank_not_in_group r group), st);
  HybridShardTest.def_patched_allreduce := λ orig_ar, "patched_allreduce";
  HybridShardTest.get_input := λ _ _ st, (Return (), st);
  HybridShardTest.forward := λ _ _ _ st, (Return (), st);
  HybridShardTest.get_loss := λ _ _ _ _ st, (Return (), st);
  HybridShardTest.backward := λ _ _ st, (Return (), st);
|}.

(** A transformer with an encoder and a decoder layer, and the test's job:
    two workers on one node. *)
Definition transformer : nn_module :=
  NN "TransformerWithSharedParams"
    [ NN "torch.nn.Embedding" [];
      NN "torch.nn.Transformer"
        [ NN "torch.nn.TransformerEncoder"
            [NN "torch.nn.TransformerEncoderLayer" [NN "torch.nn.Linear" []]];
          NN "torch.nn.TransformerDecoder"
            [NN "torch.nn.TransformerDecoderLayer" [NN "torch.nn.Linear" []]]
        ];
      NN "torch.nn.Linear" [] ].

Definition one_node_two_workers : topology :=
  {| world_size := 2; devices_per_node := 2 |}.

(** The state in which a worker starts the test: the module is loaded and
    the collectives are the framework's. *)
Definition worker_state (t : topology) (rank : nat) (model : nn_module)
    : HybridShardTest.state (FW := worker t rank model) :=
  {| HybridShardTest.dist :=
       {[ "all_reduce" := VObj "torch.distributed.all_reduce";
          "_reduce_scatter_base" :=
            VObj "torch.distributed._reduce_scatter_base" ]};
     HybridShardTest.globals :=
       HybridShardTest.module_globals (FW := worker t rank model);
     HybridShardTest.framework := ();
     HybridShardTest.assertions := 0 |}.

(** The first of the two workers of the test, and its start. *)
Definition first_worker : HybridShardTest.Framework :=
  worker one_node_two_workers 0 transformer.

Definition start : HybridShardTest.state (FW := first_worker) :=
  worker_state one_node_two_workers 0 transformer.

(** The model of the test after wrapping, on the worker of rank [rank] of
    the two. *)
Definition wrapped_transformer (rank : nat) : wrapped :=
  FullyShardedDataParallel
    ["torch.nn.TransformerEncoderLayer"; "torch.nn.TransformerDecoderLayer"]
    (attrs_of one_node_two_workers rank HYBRID_SHARD (Z.of_nat rank))
    transformer.

End FSDPModel.

(** ** Invariants of the test's computations *)

Module HybridShardInvariants.
Import HybridShardTest.

Section invariants.
Context `{FW : Framework}.

(** [m] keeps [P]: started where [P] holds it ends where [P] holds, and an
    exception it ends with is one of [allowed]. *)
Definition keeps (P : state → Prop) (allowed : exn E → Prop) {A}
    (m : T A) : Prop :=
  ∀ s, P s → P (m s).2 ∧ ∀ e, (m s).1 = Raise e → allowed e.

(** [P] does not look at the framework's state or at the count of
    assertions. *)
Definition own_state_free (P : state → Prop) : Prop :=
  ∀ s st n,
    P s →
    P {| dist := dist s; globals := globals s; framework := st;
         assertions := n |}.

End invariants.

(** States of the first worker to run the computations on: one where
    [torch.distributed] has [all_reduce] but no [_reduce_scatter_base], and
    one where the module also binds [FullyShardedDataParallel]. *)
Definition no_reduce_scatter_state : state (FW := FSDPModel.first_worker) :=
  {| dist := {[ "all_reduce" := VObj "torch.distributed.all_reduce" ]};
     globals := module_globals (FW := FSDPModel.first_worker);
     framework := ();
     assertions := 0 |}.

Definition repaired_state : state (FW := FSDPModel.first_worker) :=
  set_global (FW := FSDPModel.first_worker) "FullyShardedDataParallel"
    (VObj "torch.distributed.fsdp.FullyShardedDataParallel")
    FSDPModel.start.

(** Hosts that differ from the first worker in what the statements at the
    top of the module raise, in whether distributed is available and in how
    [_rank_not_in_group] takes the call of lines 115 and 117. *)
Definition variant_worker (raises : toplevel → option string)
    (available : bool)
    (rank_check : nat → list nat → outcome string bool) : Framework :=
  let w := FSDPModel.first_worker in
  {| Obj := string;
     E := string;
     FwState := unit;
     ShardingStrategy := FSDPModel.sharding;
     Policy := list string;
     ProcessGroup := list nat;
     Model := FSDPModel.wrapped;
     FSDPModule := FSDPModel.fsdp_module;
     Tensor := unit;
     resolve := id;
     toplevel_raises := raises;
     dist_is_available := available;
     TEST_WITH_DEV_DBG_ASAN := false;
     device_count := device_count (Framework := w);
     HYBRID_SHARD := FSDPModel.HYBRID_SHARD;
     ShardingStrategy_eq_dec := FSDPModel.sharding_eq_dec;
     partial_transformer_auto_wrap_policy := FSDPModel.class_names;
     current_device := current_device (Framework := w);
     _get_default_group := _get_default_group (Framework := w);
     TransformerWithSharedParams_init :=
       TransformerWithSharedParams_init (Framework := w);
     fsdp_modules := FSDPModel.fsdp_modules;
     sharding_strategy := FSDPModel.sharding_strategy;
     _inter_node_pg := FSDPModel._inter_node_pg;
     get_rank := get_rank (Framework := w);
     get_world_size := get_world_size (Framework := w);
     _rank_not_in_group := λ r group _ st, (rank_check r group, st);
     def_patched_allreduce := def_patched_allreduce (Framework := w);
     get_input := get_input (Framework := w);
     forward := forward (Framework := w);
     get_loss := get_loss (Framework := w);
     backward := backward (Framework := w) |}.

(** A build in which [torch.distributed.fsdp] cannot be imported and
    distributed is not available. *)
Definition no_fsdp_build : Framework :=
  variant_worker
    (λ stmt,
       match stmt with
       | FromImport module _ =>
           if String.eqb module "torch.distributed.fsdp"
           then Some "ImportError" else None
       | _ => None
       end)
    false
    (λ r group, Return (FSDPModel.rank_not_in_group r group)).

(** A host whose [_rank_not_in_group] does not take a rank and a group. *)
Definition other_rank_check : Framework :=
  variant_worker (λ _, None) true (λ _ _, Raise "TypeError").

End HybridShardInvariants.

(** * Theorems *)

(** ** Call binding and the signatures of the entry points *)

Module SignatureTheory.
Import Signature Exporter.

Section theory.
Context {V : Type}.
Implicit Types (kws named extra : list (string * V)).

#[local] Abbreviation pnames sig := (name <$> parameters sig).

Lemma bind_keywords_Return sig kws named extra named' extra' :
  (∀ k, k ∈ extra.*1 → k ∉ pnames sig) →
  bind_keywords sig kws named extra = Return (named', extra') ↔
    NoDup kws.*1 ∧
    (∀ k, k ∈ kws.*1 → k ∉ named.*1) ∧
    (∀ k, k ∈ kws.*1 → k ∉ extra.*1) ∧
    (var_keyword sig = None → ∀ k, k ∈ kws.*1 → k ∈ pnames sig) ∧
    named' = named ++ filter (λ kv, kv.1 ∈ pnames sig) kws ∧
    extra' = extra ++ filter (λ kv, kv.1 ∉ pnames sig) kws.
Proof.
  revert named extra.
  induction kws as [|[k v] kws IH]; intros named extra Hextra; simpl.
  - rewrite !app_nil_r. split.
    + intros [= -> ->]. split_and!; try done; [constructor|..];
        intros; by rewrite ?elem_of_nil in *.
    + intros (_ & _ & _ & _ & -> & ->). done.
  - rewrite NoDup_cons.
    setoid_rewrite elem_of_cons.
    destruct (decide (k ∈ named.*1)) as [Hn|Hn].
    { split; [done|]. intros (_ & H & _). exfalso. by apply (H k); [left|]. }
    destruct (decide (k ∈ pnames sig)) as [Hp|Hp].
    + rewrite IH by done. rewrite filter_cons_True by done.
      rewrite filter_cons_False by (simpl; tauto).
      rewrite fmap_app, <- !app_assoc. simpl.
      setoid_rewrite elem_of_app. setoid_rewrite list_elem_of_singleton.
      split.
      * intros (Hnd & H1 & H2 & H3 & -> & ->). split_and!; try done.
        -- intros Hk. apply (H1 k); auto.
        -- intros k' [Heq|Hk']; [by subst|]. intros Hin. apply (H1 k'); auto.
        -- intros k' [Heq|Hk']; [subst|by apply H2].
           intros Hin. by apply (Hextra k).
        -- intros Hv k' [Heq|Hk']; [by subst|by apply H3].
      * intros ((Hk & Hnd) & H1 & H2 & H3 & -> & ->). split_and!; try done.
        -- intros k' Hk' [Hin|Hin]; [apply (H1 k'); auto|by subst].
        -- intros k' Hk'. apply H2. auto.
        -- intros Hv k' Hk'. apply H3; auto.
    + destruct (var_keyword sig) as [kwname|] eqn:Hvk.
      2:{ split; [done|]. intros (_ & _ & _ & H & _). exfalso.
          apply Hp, H; auto. }
      destruct (decide (k ∈ extra.*1)) as [He|He].
      { split; [done|]. intros (_ & _ & H & _). exfalso.
        apply (H k); auto. }
      rewrite IH.
      2:{ intros k'. rewrite fmap_app, elem_of_app. simpl.
          rewrite list_elem_of_singleton.
          intros [?|?]; [by apply Hextra|by subst]. }
      rewrite filter_cons_False by (simpl; tauto).
      rewrite filter_cons_True by done.
      rewrite fmap_app, <- !app_assoc. simpl.
      setoid_rewrite elem_of_app. setoid_rewrite list_elem_of_singleton.
      split.
      * intros (Hnd & H1 & H2 & H3 & -> & ->). split_and!; try done.
        -- intros Hk. apply (H2 k); auto.
        -- intros k' [Heq|Hk']; [by subst|by apply H1].
        -- intros k' [Heq|Hk']; [by subst|].
           intros Hin. apply (H2 k'); auto.
      * intros ((Hk & Hnd) & H1 & H2 & H3 & -> & ->). split_and!; try done.
        -- intros k' Hk'. apply H1. auto.
        -- intros k' Hk' [Hin|Hin]; [apply (H2 k'); auto|by subst].
Qed.

Lemma bind_keywords_Raise sig kws named e :
  bind_keywords sig kws named [] = Raise e →
  NoDup kws.*1 →
  (∀ k, k ∈ kws.*1 → k ∉ named.*1) →
  (var_keyword sig = None → ∀ k, k ∈ kws.*1 → k ∈ pnames sig) →
  False.
Proof.
  intros Hb Hnd Hnamed Hvk.
  assert (bind_keywords sig kws named [] =
            Return (named ++ filter (λ kv, kv.1 ∈ pnames sig) kws,
                    [] ++ filter (λ kv, kv.1 ∉ pnames sig) kws)) as Hr.
  { apply bind_keywords_Return; [by intros ? ?%elem_of_nil|].
    split_and!; try done. by intros ? _ ?%elem_of_nil. }
  congruence.
Qed.

Lemma filter_ext_in {A} (P1 P2 : A → Prop)
    `{!∀ x, Decision (P1 x), !∀ x, Decision (P2 x)} (l : list A) :
  (∀ x, x ∈ l → P1 x ↔ P2 x) → filter P1 l = filter P2 l.
Proof.
  induction l as [|a l IH]; [done|]. intros Hext.
  rewrite !filter_cons, IH by (intros; apply Hext; by right).
  apply decide_ext, Hext. by left.
Qed.

Lemma filter_all {A} (P : A → Prop) `{!∀ x, Decision (P x)} (l : list A) :
  (∀ x, x ∈ l → P x) → filter P l = l.
Proof.
  induction l as [|a l IH]; [done|]. intros Hall.
  rewrite filter_cons_True by (apply Hall; by left).
  rewrite IH; [done|]. intros; apply Hall; by right.
Qed.

Lemma filter_none {A} (P : A → Prop) `{!∀ x, Decision (P x)} (l : list A) :
  (∀ x, x ∈ l → ¬ P x) → filter P l = [].
Proof.
  induction l as [|a l IH]; [done|]. intros Hnone.
  rewrite filter_cons_False by (apply Hnone; by left).
  apply IH. intros; apply Hnone; by right.
Qed.

Lemma key_in (kv : string * V) kws : kv ∈ kws → kv.1 ∈ kws.*1.
Proof. apply list_elem_of_fmap_2. Qed.

(** C4 (amended): called with a module or callable [fn], positional
    arguments and keywords,
    [export_after_normalizing_args_and_kwargs] binds the call whenever no
    keyword is repeated or named [fn]: the keywords named as one of the three
    options bind the options and all others are collected for the model;
    [export] binds the call only when every keyword is one of the three
    options, and collects no keyword for the model. *)
Theorem entry_points_accept (fn : V) (args : list V) kws :
  (∀ b,
     bind export_after_normalizing_args_and_kwargs_signature (fn :: args) kws
       = Return b ↔
     NoDup kws.*1 ∧ ("fn" ∉ kws.*1) ∧
     b = {| arguments :=
              ("fn", fn) :: filter (λ kv, kv.1 ∈ option_names) kws;
            varargs := args;
            varkw := filter (λ kv, kv.1 ∉ option_names) kws |})
  ∧
  (∀ b,
     bind export_signature (fn :: args) kws = Return b ↔
     NoDup kws.*1 ∧ (∀ k, k ∈ kws.*1 → k ∈ option_names) ∧
     b = {| arguments := ("fn", fn) :: kws; varargs := args; varkw := [] |}).
Proof.
  assert (Hp : ∀ k, k ∈ "fn" :: option_names ↔ k = "fn" ∨ k ∈ option_names).
  { intros k. by rewrite elem_of_cons. }
  assert (Hone : ∀ k, k ∈ [("fn", fn)].*1 ↔ k = "fn").
  { intros k. simpl. by rewrite list_elem_of_singleton. }
  split; intros b; unfold bind; simpl.
  - destruct (bind_keywords _ _ _ _) as [[named extra]|e] eqn:Hb.
    + apply bind_keywords_Return in Hb as (Hnd & H1 & _ & _ & -> & ->);
        [|by intros ? ?%elem_of_nil].
      assert (Hnofn : "fn" ∉ kws.*1).
      { intros Hin. apply (H1 _ Hin). by apply Hone. }
      assert (Hkv : ∀ kv : string * V, kv ∈ kws →
                kv.1 ∈ "fn" :: option_names ↔ kv.1 ∈ option_names).
      { intros kv Hin.
        rewrite Hp. split; [|auto]. intros [Heq|]; [|done].
        exfalso. apply Hnofn. rewrite <- Heq. by apply key_in. }
      change (name <$> parameters _) with ("fn" :: option_names).
      rewrite (filter_ext_in _ (λ kv, kv.1 ∈ option_names)) by done.
      rewrite (filter_ext_in (λ kv, kv.1 ∉ "fn" :: option_names)
                 (λ kv, kv.1 ∉ option_names))
        by (intros kv Hin; by rewrite (Hkv kv Hin)).
      unfold missing. simpl. rewrite drop_0.
      split; [by intros [= <-]|]. by intros (_ & _ & ->).
    + split; [done|]. intros (Hnd & Hnofn & _). exfalso.
      apply (bind_keywords_Raise _ _ _ _ Hb); [done| |done].
      intros k Hin ->%Hone. done.
  - destruct (bind_keywords _ _ _ _) as [[named extra]|e] eqn:Hb.
    + apply bind_keywords_Return in Hb as (Hnd & H1 & _ & Hvk & -> & ->);
        [|by intros ? ?%elem_of_nil].
      specialize (Hvk eq_refl).
      change (pnames _) with ("fn" :: option_names) in *.
      assert (Hopt : ∀ k, k ∈ kws.*1 → k ∈ option_names).
      { intros k Hin. destruct (proj1 (Hp k) (Hvk k Hin)) as [->|?]; [|done].
        exfalso. apply (H1 _ Hin). by apply Hone. }
      rewrite filter_all by (intros kv Hin; apply Hvk; by apply key_in).
      rewrite filter_none
        by (intros kv Hin Hnot; apply Hnot, Hvk; by apply key_in).
      unfold missing. simpl. rewrite drop_0.
      split; [by intros [= <-]|]. by intros (_ & _ & ->).
    + split; [done|]. intros (Hnd & Hopt & _). exfalso.
      apply (bind_keywords_Raise _ _ _ _ Hb); [done| |].
      * intros k Hin ->%Hone. apply Hopt in Hin.
        repeat (apply elem_of_cons in Hin as [?|Hin]; [done|]).
        by apply elem_of_nil in Hin.
      * intros _ k Hin. change (pnames _) with ("fn" :: option_names).
        apply Hp. auto.
Qed.

End theory.

(** C4, as stated, fails for [export]: a keyword argument meant for the
    model is a TypeError there. *)
Lemma export_rejects_model_keyword :
  bind export_signature ["model"; "input_ids"] [("attention_mask", "mask")]
  = Raise (UnexpectedKeyword "attention_mask").
Proof. reflexivity. Qed.

Example export_after_normalizing_takes_model_keyword :
  bind export_after_normalizing_args_and_kwargs_signature
    ["model"; "input_ids"]
    [("attention_mask", "mask"); ("opset_version", "17")]
  = Return {| arguments := [("fn", "model"); ("opset_version", "17")];
              varargs := ["input_ids"];
              varkw := [("attention_mask", "mask")] |}.
Proof. reflexivity. Qed.

End SignatureTheory.

(** ** The exporter *)

Module ExporterTheory.
Import Exporter.

(** A sublist whose members all satisfy [P] is a sublist of the filter. *)
Lemma sublist_into_filter {A} (P : A → Prop) `{!∀ x, Decision (P x)}
    (l k : list A) :
  sublist l k → Forall P l → sublist l (filter P k).
Proof.
  induction 1 as [|x l k Hsub IH|x l k Hsub IH]; intros Hall.
  - constructor.
  - apply Forall_cons in Hall as [Hx Hall].
    rewrite filter_cons_True by done. constructor. by apply IH.
  - rewrite filter_cons. destruct (decide (P x)); [constructor|]; by apply IH.
Qed.

Section exporter.
Context `{FW : Framework}.

#[local] Abbreviation value := (Py.value Obj).

(** Unfold the monad and run a computation up to the next framework call. *)
Ltac run :=
  unfold export, export_after_normalizing_args_and_kwargs, _export,
    spec_export_steps, spec_lowering_steps, export_options_of, update,
    no_dispatch, invoke, mbind, M_bind, mret, M_ret, default;
  simpl.

Ltac next_call :=
  match goal with
  | |- context [match ?r with Return _ => _ | Raise _ => _ end] =>
      destruct r eqn:?; simpl
  end.

Lemma _export_calls module args ubf opset dbg w :
  calls (_export module args
           {| kw_opset_version := Some opset;
              kw_decomposition_table :=
                Some _ONNX_FRIENDLY_DECOMPOSITION_TABLE;
              kw_use_binary_format := Some ubf;
              kw_op_level_debug := Some dbg |} w).2
  = calls w ++
    spec_lowering_steps (dispatch_disabled w) module args ubf opset dbg.
Proof.
  run. destruct ubf; repeat next_call;
    rewrite <- ?app_assoc; reflexivity.
Qed.

Lemma _export_dispatch module args kw w :
  dispatch_disabled (_export module args kw w).2 = dispatch_disabled w.
Proof.
  run. repeat (case_match; simpl); reflexivity.
Qed.

Lemma export_calls fn args ubf opset dbg w :
  calls (export fn args ubf opset dbg w).2
  = calls w ++ spec_export_steps (dispatch_disabled w) fn args ubf opset dbg.
Proof.
  unfold export, spec_export_steps, mbind, M_bind, invoke.
  destruct (DynamoExport_trace _ _ _ _) as [gm|e]; [|reflexivity].
  rewrite _export_calls. simpl. by rewrite <- app_assoc.
Qed.

(** C2: every call of [export] makes the framework calls of the pipeline
    (trace, Decompose with the ONNX decomposition table, shape inference,
    export_fx_to_onnxscript, to_model_proto at the requested opset), in that
    order, each on the result of the one before, and stops at the first that
    raises; a call that returns has made all five, followed only by the
    serialization of the ModelProto when the binary format is asked for. *)
Theorem export_runs_passes_in_order
    (fn : callable Exn Obj NNModule) (args : list value)
    (ubf : bool) (opset : Z) (dbg : bool) (w : world) :
  let run := export fn args ubf opset dbg w in
  let d := dispatch_disabled w in
  let table := _ONNX_FRIENDLY_DECOMPOSITION_TABLE in
  let opts := export_options_of ubf opset dbg in
  calls run.2 = calls w ++ spec_export_steps d fn args ubf opset dbg ∧
  ∀ out, run.1 = Return out →
    ∃ gm dm dm' g m,
      DynamoExport_trace "real" true fn args = Return gm ∧
      Decompose_run gm table args = Return dm ∧
      ShapeInferenceWithFakeTensor_run dm args = Return dm' ∧
      export_fx_to_onnxscript dm' opts = Return g ∧
      to_model_proto g opset = Return m ∧
      calls run.2 =
        calls w ++
        [ (d, CallDynamoExportTrace "real" true fn args);
          (d, CallDecompose gm table args);
          (d, CallShapeInference dm args);
          (true, CallExportFxToOnnxscript dm' opts);
          (d, CallToModelProto g opset) ] ++
        (if ubf then [(d, CallSerializeToString m)] else []).
Proof.
  intros run d table opts. split; [apply export_calls|].
  intros out. subst run. rewrite export_calls. fold d. run.
  repeat next_call; try discriminate; intros _.
  all: do 5 eexists; repeat (split; [eassumption || reflexivity|]).
  all: destruct ubf; reflexivity.
Qed.

Ltac use_equations :=
  simpl;
  repeat match goal with
         | H : ?x = _ |- context [?x] => rewrite H
         | H : ?x = _, H' : context [?x] |- _ => rewrite H in H'
         end.

(** Find, among the calls of an explicit list, one that does what the goal
    says. *)
Ltac pick_call :=
  (apply list_elem_of_here) + (apply list_elem_of_further; pick_call).

Lemma _export_raise module args ubf opset dbg w e :
  (_export module args
     {| kw_opset_version := Some opset;
        kw_decomposition_table := Some _ONNX_FRIENDLY_DECOMPOSITION_TABLE;
        kw_use_binary_format := Some ubf;
        kw_op_level_debug := Some dbg |} w).1 = Raise e
  ↔ ∃ b c,
      (b, c) ∈ spec_lowering_steps (dispatch_disabled w) module args
                 ubf opset dbg
      ∧ raised_by c = Some e.
Proof.
  run. destruct ubf; repeat next_call.
  all: split;
    [ intros [= <-] || discriminate
    | intros (b & c & Hin & Hr) ].
  all: try (eexists _, _; split; [pick_call|]; by use_equations).
  all: revert Hr;
    repeat (apply elem_of_cons in Hin as [Hin|Hin];
            [simplify_eq; use_equations; congruence|]);
    by apply elem_of_nil in Hin.
Qed.

Lemma _export_return module args ubf opset dbg w out :
  (_export module args
     {| kw_opset_version := Some opset;
        kw_decomposition_table := Some _ONNX_FRIENDLY_DECOMPOSITION_TABLE;
        kw_use_binary_format := Some ubf;
        kw_op_level_debug := Some dbg |} w).1 = Return out →
  spec_output ubf opset out.
Proof.
  unfold spec_output. run.
  destruct ubf; repeat next_call; intros [= <-]; eauto 6.
Qed.

Lemma normalizing_export_calls fn args ubf opset dbg kw w :
  calls (export_after_normalizing_args_and_kwargs
           fn args ubf opset dbg kw w).2
  = calls w ++
    spec_normalizing_export_steps (dispatch_disabled w)
      fn args kw ubf opset dbg.
Proof.
  unfold export_after_normalizing_args_and_kwargs,
    spec_normalizing_export_steps, mbind, M_bind, invoke.
  destruct (FxFrontendUnpackKwargs_trace _ _ _ _) as [[g bound]|e];
    [|reflexivity].
  rewrite _export_calls. simpl. by rewrite <- app_assoc.
Qed.

(** C3: a call of [export] or of
    [export_after_normalizing_args_and_kwargs] that returns hands back the
    bytes of [SerializeToString] on the ModelProto when [use_binary_format]
    is true, and the ModelProto itself when it is false. *)
Theorem export_returns_bytes_or_model
    (fn : callable Exn Obj NNModule) (args : list value) (kw : kwargs Obj)
    (ubf : bool) (opset : Z) (dbg : bool) (w : world)
    (out : export_output) :
  (export fn args ubf opset dbg w).1 = Return out ∨
  (export_after_normalizing_args_and_kwargs
     fn args ubf opset dbg kw w).1 = Return out →
  ∃ g m, to_model_proto g opset = Return m ∧
    if ubf then ∃ b, SerializeToString m = Return b ∧ out = AsBytes b
    else out = AsModelProto m.
Proof.
  unfold export, export_after_normalizing_args_and_kwargs, mbind, M_bind,
    invoke.
  intros [H|H]; revert H.
  - destruct (DynamoExport_trace _ _ _ _) as [gm|e]; [|discriminate].
    apply _export_return.
  - destruct (FxFrontendUnpackKwargs_trace _ _ _ _) as [[g bound]|e];
      [|discriminate].
    apply _export_return.
Qed.

(** C5: [export] and [export_after_normalizing_args_and_kwargs] raise
    exactly what a framework call they made raised: a call raises [e] if
    and only if one of the framework calls of that run raised [e]. *)
Theorem export_raises_what_a_pass_raises
    (fn : callable Exn Obj NNModule) (args : list value) (kw : kwargs Obj)
    (ubf : bool) (opset : Z) (dbg : bool) (w : world) :
  let run1 := export fn args ubf opset dbg w in
  let run2 :=
    export_after_normalizing_args_and_kwargs fn args ubf opset dbg kw w in
  (∃ steps, calls run1.2 = calls w ++ steps ∧
     ∀ e, run1.1 = Raise e ↔ ∃ b c, (b, c) ∈ steps ∧ raised_by c = Some e)
  ∧
  (∃ steps, calls run2.2 = calls w ++ steps ∧
     ∀ e, run2.1 = Raise e ↔ ∃ b c, (b, c) ∈ steps ∧ raised_by c = Some e).
Proof.
  intros run1 run2. split.
  - eexists. split; [apply export_calls|]. intros e.
    subst run1. unfold export, spec_export_steps, mbind, M_bind, invoke.
    destruct (DynamoExport_trace _ _ _ _) as [gm|e0] eqn:Htrace; simpl.
    + rewrite _export_raise. simpl. split.
      * intros (b & c & Hin & Hr). exists b, c. split; [|done].
        by apply list_elem_of_further.
      * intros (b & c & Hin & Hr). exists b, c. split; [|done].
        apply elem_of_cons in Hin as [Hin|Hin]; [|done].
        simplify_eq. simpl in Hr. by rewrite Htrace in Hr.
    + split.
      * intros [= <-]. eexists _, _. split; [apply list_elem_of_here|].
        simpl. by rewrite Htrace.
      * intros (b & c & Hin & Hr).
        apply list_elem_of_singleton in Hin. simplify_eq. simpl in Hr.
        rewrite Htrace in Hr. congruence.
  - eexists. split; [apply normalizing_export_calls|]. intros e.
    subst run2.
    unfold export_after_normalizing_args_and_kwargs,
      spec_normalizing_export_steps, mbind, M_bind, invoke.
    destruct (FxFrontendUnpackKwargs_trace _ _ _ _)
      as [[g bound]|e0] eqn:Htrace; simpl.
    + rewrite _export_raise. simpl. split.
      * intros (b & c & Hin & Hr). exists b, c. split; [|done].
        by apply list_elem_of_further.
      * intros (b & c & Hin & Hr). exists b, c. split; [|done].
        apply elem_of_cons in Hin as [Hin|Hin]; [|done].
        simplify_eq. simpl in Hr. by rewrite Htrace in Hr.
    + split.
      * intros [= <-]. eexists _, _. split; [apply list_elem_of_here|].
        simpl. by rewrite Htrace.
      * intros (b & c & Hin & Hr).
        apply list_elem_of_singleton in Hin. simplify_eq. simpl in Hr.
        rewrite Htrace in Hr. congruence.
Qed.

(** C10: the function that [export_after_normalizing_args_and_kwargs]
    traces calls [fn] (its [forward] when [fn] is a module) on the arguments
    and keyword arguments it is given and returns the list of the leaves of
    what that call returns (the structure [tree_flatten] gives beside them
    is dropped, and an exception of [fn] goes through); the pipeline is run
    on the bound arguments with every None removed and nothing else: what
    is passed on holds no None and is the largest such sublist of the bound
    arguments. *)
Theorem normalizing_export_flattens_and_drops_None
    (fn : callable Exn Obj NNModule) (args : list value) (kw : kwargs Obj)
    (ubf : bool) (opset : Z) (dbg : bool) (w : world) :
  let run :=
    export_after_normalizing_args_and_kwargs fn args ubf opset dbg kw w in
  let d := dispatch_disabled w in
  let leaves_of (r : outcome Exn value) : outcome Exn value :=
    match r with
    | Return out => Return (VList (tree_flatten out).1)
    | Raise e => Raise e
    end in
  (∀ m a k, __call__ (wrapper (Module m)) a k = leaves_of (forward m a k)) ∧
  (∀ f a k, __call__ (wrapper (Callable f)) a k = leaves_of (f a k)) ∧
  ∃ rest,
    calls run.2 =
      calls w ++ (d, CallUnpackKwargsTrace false (wrapper fn) args kw) :: rest
    ∧ match FxFrontendUnpackKwargs_trace false (wrapper fn) args kw with
      | Raise _ => rest = []
      | Return (captured_graph, bound_args) =>
          ∃ passed,
            rest = spec_lowering_steps d captured_graph passed ubf opset dbg
            ∧ head rest =
                Some (d, CallDecompose captured_graph
                           _ONNX_FRIENDLY_DECOMPOSITION_TABLE passed)
            ∧ passed = filter (λ arg, arg ≠ VNone) bound_args
            ∧ (VNone ∉ passed)
            ∧ sublist passed bound_args
            ∧ (∀ l, sublist l bound_args → VNone ∉ l → sublist l passed)
            ∧ ∀ x, x ∈ passed ↔ x ∈ bound_args ∧ x ≠ VNone
      end.
Proof.
  intros run d leaves_of. split_and!.
  - intros m a k. unfold wrapper, inner, fn_call, leaves_of. simpl.
    destruct (forward m a k) as [out|e]; [|reflexivity].
    by destruct (tree_flatten out).
  - intros f a k. unfold wrapper, inner, fn_call, leaves_of. simpl.
    destruct (f a k) as [out|e]; [|reflexivity].
    by destruct (tree_flatten out).
  - eexists. split; [apply normalizing_export_calls|].
    destruct (FxFrontendUnpackKwargs_trace _ _ _ _) as [[g bound]|e];
      [|reflexivity].
    exists (filter (λ arg, arg ≠ VNone) bound). split_and!.
    + reflexivity.
    + reflexivity.
    + reflexivity.
    + rewrite list_elem_of_filter. tauto.
    + apply sublist_filter.
    + intros l Hsub Hnone. apply sublist_into_filter; [done|].
      apply Forall_forall. by intros x Hx ->.
    + intros x. rewrite list_elem_of_filter. tauto.
Qed.

End exporter.

(** The exporter run on the small framework. *)

Example export_toy_calls :
  (export (FW := toy) toy_fn [VInt 1; VNone] true 18 false toy_world).1
  = Return (AsBytes (FW := toy)
      ["dynamo_export"; "decompose"; "shapes"; "onnxscript"; "bytes"]).
Proof. reflexivity. Qed.

Example export_toy_log :
  calls
    (export (FW := toy) toy_fn [VInt 1; VNone] default_use_binary_format
       (default_opset_version (FW := toy)) default_op_level_debug
       toy_world).2
  = [ (false,
       CallDynamoExportTrace (FW := toy) "real" true toy_fn
         [VInt 1; VNone]);
      (false,
       CallDecompose (FW := toy) ["dynamo_export"] 7 [VInt 1; VNone]);
      (false,
       CallShapeInference (FW := toy) ["dynamo_export"; "decompose"]
         [VInt 1; VNone]);
      (true,
       CallExportFxToOnnxscript (FW := toy)
         ["dynamo_export"; "decompose"; "shapes"]
         (export_options_of (FW := toy) true 18 false));
      (false,
       CallToModelProto (FW := toy)
         ["dynamo_export"; "decompose"; "shapes"; "onnxscript"] 18);
      (false,
       CallSerializeToString (FW := toy)
         (["dynamo_export"; "decompose"; "shapes"; "onnxscript"], 18%Z)) ].
Proof. reflexivity. Qed.

Example normalizing_export_toy_log :
  head
    (drop 1
       (calls
          (export_after_normalizing_args_and_kwargs (FW := toy) toy_fn
             [VInt 1; VNone] false 18 false [("mask", VNone); ("k", VInt 2)]
             toy_world).2))
  = Some
      (false,
       CallDecompose (FW := toy) ["dynamo_optimize"] 7 [VInt 1; VInt 2]).
Proof. reflexivity. Qed.

Example wrapper_toy_callable :
  __call__ (wrapper (FW := toy) toy_fn) [VInt 1; VNone] [("k", VInt 2)]
  = Return (VList [VInt 1; VNone; VInt 2]).
Proof. reflexivity. Qed.

Example wrapper_toy_module :
  __call__ (wrapper (FW := toy) (Module 3)) [VList [VInt 1; VInt 2]] []
  = Return (VList [VInt 3; VInt 1; VInt 2]).
Proof. reflexivity. Qed.

Example normalizing_export_toy_keeps_repeated_arguments :
  head
    (drop 1
       (calls
          (export_after_normalizing_args_and_kwargs (FW := toy) toy_fn
             [VInt 1; VNone; VInt 1] false 18 false [("mask", VNone)]
             toy_world).2))
  = Some
      (false,
       CallDecompose (FW := toy) ["dynamo_optimize"] 7 [VInt 1; VInt 1]).
Proof. reflexivity. Qed.

Example export_toy_bad_opset :
  (export (FW := toy) toy_fn [VInt 1] true 0 false toy_world).1
  = Raise "unsupported opset".
Proof. reflexivity. Qed.

Lemma export_returns_bytes_or_model_witness :
  ∃ g m, to_model_proto (Framework := toy) g 18 = Return m ∧
    ∃ b, SerializeToString (Framework := toy) m = Return b ∧
      AsBytes (FW := toy)
        ["dynamo_export"; "decompose"; "shapes"; "onnxscript"; "bytes"]
      = AsBytes b.
Proof.
  apply (export_returns_bytes_or_model (FW := toy)
           toy_fn [VInt 1; VNone] [] true 18 false toy_world).
  left. reflexivity.
Defined.

End ExporterTheory.

(** ** The context managers and the test *)

Module HybridShardTheory.
Import HybridShardTest.

Section test.
Context `{FW : Framework}.

#[local] Abbreviation value := (Py.value Obj).

Ltac run :=
  unfold patch_allreduce, patch_reduce_scatter, try_finally, getattr_dist,
    setattr_dist, store_global, mbind, T_bind, mret, T_ret;
  simpl.

(** C6: entered where the patched name is bound, each context manager runs
    the block of the [with] statement with the replacement bound to the
    name, ends as the block ends (with its value or its exception), and
    leaves the name bound to what it was bound to on entry. *)
Theorem patches_install_and_restore {A} (block : T A)
    (new_collective dtype orig_ar orig_reduce_scatter : value) (s : state) :
  dist s !! "all_reduce" = Some orig_ar →
  dist s !! "_reduce_scatter_base" = Some orig_reduce_scatter →
  (let inside := block (set_dist "all_reduce" new_collective s) in
   let after := patch_allreduce new_collective block s in
   after = (inside.1, set_dist "all_reduce" orig_ar inside.2) ∧
   dist after.2 !! "all_reduce" = Some orig_ar)
  ∧
  (let inside :=
     block (set_global "_CURRENT_FULL_PRECISION_PARAM_DTYPE" dtype
              (set_dist "_reduce_scatter_base" new_collective s)) in
   let after := patch_reduce_scatter new_collective dtype block s in
   after =
     (inside.1,
      set_global "_CURRENT_FULL_PRECISION_PARAM_DTYPE" VNone
        (set_dist "_reduce_scatter_base" orig_reduce_scatter inside.2)) ∧
   dist after.2 !! "_reduce_scatter_base" = Some orig_reduce_scatter).
Proof.
  intros Har Hrs. split; run.
  - rewrite Har. simpl.
    destruct (block _) as [[a|e] s1]; simpl;
      (split; [reflexivity|apply lookup_insert_eq]).
  - rewrite Hrs. simpl.
    destruct (block _) as [[a|e] s1]; simpl;
      (split; [reflexivity|apply lookup_insert_eq]).
Qed.

(** C9: when [patch_reduce_scatter] exits, the global
    [_CURRENT_FULL_PRECISION_PARAM_DTYPE] is None whatever it was on entry;
    so after an inner [with patch_reduce_scatter(...)] the block of an outer
    one reads None, not the dtype the outer one stored. *)
Theorem patch_reduce_scatter_leaves_dtype_None {A} (block : T A)
    (new_outer dtype_outer new_inner dtype_inner orig : value) (s : state) :
  dist s !! "_reduce_scatter_base" = Some orig →
  globals (patch_reduce_scatter new_outer dtype_outer block s).2
    !! "_CURRENT_FULL_PRECISION_PARAM_DTYPE" = Some VNone
  ∧
  (let entered_outer :=
     set_global "_CURRENT_FULL_PRECISION_PARAM_DTYPE" dtype_outer
       (set_dist "_reduce_scatter_base" new_outer s) in
   let entered_inner :=
     set_global "_CURRENT_FULL_PRECISION_PARAM_DTYPE" dtype_inner
       (set_dist "_reduce_scatter_base" new_inner entered_outer) in
   globals entered_outer !! "_CURRENT_FULL_PRECISION_PARAM_DTYPE"
     = Some dtype_outer ∧
   (is_return (block entered_inner).1 = true →
    (patch_reduce_scatter new_outer dtype_outer
       (patch_reduce_scatter new_inner dtype_inner block;;
        load_name "_CURRENT_FULL_PRECISION_PARAM_DTYPE") s).1
    = Return VNone)).
Proof.
  intros Hrs. split; [|split].
  - run. rewrite Hrs. simpl.
    destruct (block _) as [[a|e] s1]; simpl; apply lookup_insert_eq.
  - apply lookup_insert_eq.
  - run. rewrite Hrs. simpl. rewrite lookup_insert_eq. simpl.
    unfold set_global, set_dist. simpl.
    destruct (block _) as [[a|e] s1]; simpl; [intros _|discriminate].
    unfold load_name. simpl. by rewrite lookup_insert_eq.
Qed.

(** Equalities between sets of names, shown element by element. *)
Ltac same_names :=
  apply set_eq; intros ?;
  rewrite ?elem_of_union, ?elem_of_singleton, ?elem_of_list_to_set,
    ?elem_of_app, ?elem_of_cons, ?elem_of_nil, ?elem_of_empty;
  tauto.

(** Running the statements of a module binds the names they bind, and
    no other. *)
Lemma exec_toplevel_dom stmt (g g' : gmap string value) :
  exec_toplevel stmt g = Return g' →
  dom g' = list_to_set (bound_names stmt) ∪ dom g.
Proof.
  destruct stmt as [module [name|]|module names|[] code|name|name|]; simpl;
    try destruct (toplevel_raises _);
    try discriminate; intros [= <-];
    rewrite ?dom_insert_L; try same_names.
  revert g. induction names as [|item names IH]; intros g; simpl.
  - same_names.
  - rewrite IH. unfold bind_from. rewrite dom_insert_L. same_names.
Qed.

Lemma exec_module_dom stmts (g g' : gmap string value) :
  exec_module stmts g = Return g' →
  dom g' = list_to_set (mjoin (bound_names <$> stmts)) ∪ dom g.
Proof.
  revert g. induction stmts as [|stmt stmts IH]; intros g; simpl.
  - intros [= <-]. same_names.
  - destruct (exec_toplevel stmt g) as [g1|e] eqn:Hstmt; [|discriminate].
    intros Hrest. rewrite (IH _ Hrest), (exec_toplevel_dom _ _ _ Hstmt).
    same_names.
Qed.

Lemma module_globals_dom (g : gmap string value) (name : string) :
  load_module = Return g →
  name ∈ dom g ↔
  name ∈ mjoin (bound_names <$> module_body) ++
         ["__name__"; "__doc__"; "__package__"; "__loader__"; "__spec__";
          "__file__"; "__builtins__"].
Proof.
  intros Hload. rewrite (exec_module_dom _ _ _ Hload).
  unfold fresh_globals. rewrite dom_list_to_map_L, <- list_fmap_compose.
  rewrite elem_of_union, !elem_of_list_to_set, elem_of_app. simpl.
  reflexivity.
Qed.

Lemma load_name_state name (s : state) : (load_name name s).2 = s.
Proof.
  unfold load_name. destruct (globals s !! name); [done|].
  by destruct (decide _).
Qed.

Lemma load_name_global (s : state) (g : gmap string value) name :
  load_module = Return g → globals s = g →
  bool_decide
    (name ∈ mjoin (bound_names <$> module_body) ++
       ["__name__"; "__doc__"; "__package__"; "__loader__"; "__spec__";
        "__file__"; "__builtins__"]) = true →
  ∃ v, load_name name s = (Return v, s).
Proof.
  intros Hload Hg Hin%bool_decide_eq_true.
  apply (module_globals_dom g name Hload), elem_of_dom in Hin as [v Hv].
  exists v. unfold load_name. by rewrite Hg, Hv.
Qed.

Lemma load_name_unbound (s : state) (g : gmap string value) name :
  load_module = Return g → globals s = g →
  bool_decide
    (name ∈ mjoin (bound_names <$> module_body) ++
       ["__name__"; "__doc__"; "__package__"; "__loader__"; "__spec__";
        "__file__"; "__builtins__"]) = false →
  bool_decide (name ∈ builtins) = false →
  load_name name s = (Raise (NameError name), s).
Proof.
  intros Hload Hg Hout%bool_decide_eq_false Hb%bool_decide_eq_false.
  rewrite <- (module_globals_dom g name Hload), not_elem_of_dom in Hout.
  unfold load_name. rewrite Hg, Hout. by rewrite decide_False.
Qed.

Lemma load_name_builtin (s : state) (g : gmap string value) name :
  load_module = Return g → globals s = g →
  bool_decide
    (name ∈ mjoin (bound_names <$> module_body) ++
       ["__name__"; "__doc__"; "__package__"; "__loader__"; "__spec__";
        "__file__"; "__builtins__"]) = false →
  bool_decide (name ∈ builtins) = true →
  load_name name s = (Return (VObj (resolve ("builtins." +:+ name))), s).
Proof.
  intros Hload Hg Hout%bool_decide_eq_false Hb%bool_decide_eq_true.
  rewrite <- (module_globals_dom g name Hload), not_elem_of_dom in Hout.
  unfold load_name. rewrite Hg, Hout. by rewrite decide_True.
Qed.

End test.

(** Resolve the next read of a global name that the module binds. *)
Ltac load_bound Hload Hg :=
  match goal with
  | |- context [load_name ?name ?st] =>
      let v := fresh "v" in
      let Hv := fresh "Hv" in
      destruct (load_name_global st _ name Hload Hg eq_refl) as [v Hv];
      rewrite Hv; clear Hv; simpl
  end.

(** The same for a name that only the builtins bind. *)
Ltac load_builtin Hload Hg :=
  match goal with
  | |- context [load_name ?name ?st] =>
      rewrite (load_name_builtin st _ name Hload Hg eq_refl eq_refl); simpl
  end.

Section test_body.
Context `{FW : Framework}.

#[local] Abbreviation value := (Py.value Obj).

(** The set-up keeps the globals and evaluates no assertion, and an
    exception it ends with is one of a framework call. *)
Lemma setup_run (s s1 : state) (g : gmap string value) r :
  load_module = Return g → globals s = g →
  setup s = (r, s1) →
  globals s1 = globals s ∧
  assertions s1 = assertions s ∧
  ∀ e, r = Raise e → ∃ e', e = FrameworkError e'.
Proof.
  intros Hload Hg. unfold setup, process_group, mbind, T_bind.
  do 5 load_bound Hload Hg.
  unfold call at 1.
  destruct (current_device _ _) as [[device|e] st1]; simpl;
    [|intros [= <- <-]; split_and!; [done..|intros ? [= <-]; eauto]].
  do 3 load_bound Hload Hg.
  unfold call at 1.
  destruct (_get_default_group _ _) as [[group|e] st2]; simpl;
    [|intros [= <- <-]; split_and!; [done..|intros ? [= <-]; eauto]].
  do 2 load_bound Hload Hg.
  unfold call.
  destruct (TransformerWithSharedParams_init _ _ _ _) as [[m|e] st3]; simpl;
    intros [= <- <-]; split_and!; try done.
  intros ? [= <-]; eauto.
Qed.

(** C8: the module binds [FSDP] and does not bind
    [FullyShardedDataParallel]; so, where the module has been loaded and at
    least two devices are there, every run of
    [test_fsdp_hybrid_shard_basic_setup] ends before any assertion is
    evaluated: with NameError for [FullyShardedDataParallel] as soon as the
    set-up of lines 92-106 has returned the wrapped model, and with the
    exception of the framework call that failed when the set-up did not get
    that far. *)
Theorem test_raises_NameError (s : state) (g : gmap string value) :
  load_module = Return g →
  globals s = g →
  (2 ≤ device_count (framework s))%nat →
  let run := test_fsdp_hybrid_shard_basic_setup s in
  is_Some (g !! "FSDP") ∧
  g !! "FullyShardedDataParallel" = None ∧
  assertions run.2 = assertions s ∧
  match setup s with
  | (Return fsdp_model, s1) =>
      run = (Raise (NameError "FullyShardedDataParallel"), s1)
  | (Raise e, s1) => run = (Raise e, s1) ∧ ∃ e', e = FrameworkError e'
  end.
Proof.
  intros Hload Hg Hgpu run. subst run.
  split; [|split].
  { apply elem_of_dom, (module_globals_dom g _ Hload).
    by apply (bool_decide_unpack _). }
  { apply not_elem_of_dom. rewrite (module_globals_dom g _ Hload).
    by apply (proj1 (bool_decide_eq_false _)). }
  unfold test_fsdp_hybrid_shard_basic_setup, skip_if_lt_x_gpu.
  rewrite decide_True by done.
  unfold mbind, T_bind.
  destruct (setup s) as [[fsdp_model|e] s1] eqn:Hsetup; simpl.
  - destruct (setup_run _ _ g _ Hload Hg Hsetup) as (Hglobals & Hasserts & _).
    unfold checks, mbind, T_bind.
    rewrite (load_name_unbound s1 g) by (done || congruence).
    done.
  - destruct (setup_run _ _ g _ Hload Hg Hsetup) as (_ & Hasserts & Hexn).
    split; [done|]. split; [done|]. by apply Hexn.
Qed.

End test_body.

(** The theorems at the first of the two workers of the test. *)

Import FSDPModel.

#[local] Abbreviation obj name :=
  (VObj (Obj := Obj (Framework := first_worker)) name).

Lemma patches_install_and_restore_witness :
  (let inside :=
     raise (A := unit) AssertionError
       (set_dist "all_reduce" (obj "patched_allreduce") start) in
   let after :=
     patch_allreduce (obj "patched_allreduce")
       (raise (A := unit) AssertionError) start in
   after =
     (inside.1,
      set_dist "all_reduce" (obj "torch.distributed.all_reduce") inside.2)
   ∧ dist after.2 !! "all_reduce"
     = Some (obj "torch.distributed.all_reduce"))
  ∧
  (let inside :=
     raise (A := unit) AssertionError
       (set_global "_CURRENT_FULL_PRECISION_PARAM_DTYPE"
          (obj "torch.float16")
          (set_dist "_reduce_scatter_base" (obj "patched_allreduce")
             start)) in
   let after :=
     patch_reduce_scatter (obj "patched_allreduce") (obj "torch.float16")
       (raise (A := unit) AssertionError) start in
   after =
     (inside.1,
      set_global "_CURRENT_FULL_PRECISION_PARAM_DTYPE" VNone
        (set_dist "_reduce_scatter_base"
           (obj "torch.distributed._reduce_scatter_base") inside.2))
   ∧ dist after.2 !! "_reduce_scatter_base"
     = Some (obj "torch.distributed._reduce_scatter_base")).
Proof.
  apply (patches_install_and_restore
           (raise AssertionError) (obj "patched_allreduce")
           (obj "torch.float16") (obj "torch.distributed.all_reduce")
           (obj "torch.distributed._reduce_scatter_base") start);
    reflexivity.
Defined.

Lemma patch_reduce_scatter_leaves_dtype_None_witness :
  globals
    (patch_reduce_scatter (obj "outer") (obj "torch.float32") (mret ())
       start).2
    !! "_CURRENT_FULL_PRECISION_PARAM_DTYPE" = Some VNone
  ∧
  (let entered_outer :=
     set_global "_CURRENT_FULL_PRECISION_PARAM_DTYPE" (obj "torch.float32")
       (set_dist "_reduce_scatter_base" (obj "outer") start) in
   let entered_inner :=
     set_global "_CURRENT_FULL_PRECISION_PARAM_DTYPE" (obj "torch.float16")
       (set_dist "_reduce_scatter_base" (obj "inner") entered_outer) in
   globals entered_outer !! "_CURRENT_FULL_PRECISION_PARAM_DTYPE"
     = Some (obj "torch.float32") ∧
   (is_return (mret (M := T) () entered_inner).1 = true →
    (patch_reduce_scatter (obj "outer") (obj "torch.float32")
       (patch_reduce_scatter (obj "inner") (obj "torch.float16") (mret ());;
        load_name "_CURRENT_FULL_PRECISION_PARAM_DTYPE") start).1
    = Return VNone)).
Proof.
  apply (patch_reduce_scatter_leaves_dtype_None
           (mret ()) (obj "outer") (obj "torch.float32") (obj "inner")
           (obj "torch.float16")
           (obj "torch.distributed._reduce_scatter_base") start).
  reflexivity.
Defined.

Example nested_patch_reduce_scatter_reads_None :
  (patch_reduce_scatter (obj "outer") (obj "torch.float32")
     (patch_reduce_scatter (obj "inner") (obj "torch.float16") (mret ());;
      load_name "_CURRENT_FULL_PRECISION_PARAM_DTYPE") start).1
  = Return VNone.
Proof. reflexivity. Qed.

Lemma test_raises_NameError_witness :
  is_Some (module_globals (FW := first_worker) !! "FSDP") ∧
  module_globals (FW := first_worker) !! "FullyShardedDataParallel" = None ∧
  assertions (test_fsdp_hybrid_shard_basic_setup start).2 = 0 ∧
  test_fsdp_hybrid_shard_basic_setup start
  = (Raise (NameError "FullyShardedDataParallel"), start).
Proof.
  apply (test_raises_NameError start (module_globals (FW := first_worker))).
  - reflexivity.
  - reflexivity.
  - simpl. lia.
Defined.

End HybridShardTheory.

(** ** The wrapper under hybrid sharding *)

Module FSDPModelTheory.
Import FSDPModel.

Local Open Scope nat_scope.









Example inter_node_ranks_two_nodes :
  inter_node_ranks {| world_size := 4; devices_per_node := 2 |} 1 = [1; 3].
Proof. reflexivity. Qed.


(** On the second worker the loop of lines 108-117 would pass all its nine
    assertions, were it reached. *)
Example checks_on_second_worker :
  HybridShardTest.for_each (fsdp_modules (wrapped_transformer 1))
    (HybridShardTest.check_module
       (FW := worker one_node_two_workers 1 transformer))
    (worker_state one_node_two_workers 1 transformer)
  = (Return (),
     {| HybridShardTest.dist :=
          HybridShardTest.dist
            (worker_state one_node_two_workers 1 transformer);
        HybridShardTest.globals :=
          HybridShardTest.globals
            (worker_state one_node_two_workers 1 transformer);
        HybridShardTest.framework := ();
        HybridShardTest.assertions := 9 |}).
Proof. reflexivity. Qed.

End FSDPModelTheory.

(** ** More on the context managers and the module *)

Module HybridShardMore.
Import HybridShardTest.

Section patches.
Context `{FW : Framework}.

#[local] Abbreviation value := (Py.value Obj).

Ltac run :=
  unfold patch_allreduce, patch_reduce_scatter, try_finally, getattr_dist,
    setattr_dist, store_global, mbind, T_bind, mret, T_ret;
  simpl.

(** X1: where [torch.distributed] lacks the attribute a context manager
    patches, that context manager raises AttributeError on entry, whatever
    the other attributes are: the block is not run and nothing is changed,
    the dtype global included. *)
Theorem patches_raise_without_the_attribute {A} (block : T A)
    (new_collective dtype : value) (s : state) :
  (dist s !! "all_reduce" = None →
   patch_allreduce new_collective block s
     = (Raise (AttributeError "all_reduce"), s)) ∧
  (dist s !! "_reduce_scatter_base" = None →
   patch_reduce_scatter new_collective dtype block s
     = (Raise (AttributeError "_reduce_scatter_base"), s)).
Proof.
  split.
  - intros Har. run. by rewrite Har.
  - intros Hrs. run. by rewrite Hrs.
Qed.

(** X2: nested [patch_allreduce] blocks unwind in order: the inner block runs
    with the inner replacement, after the inner exit the outer block sees the
    outer replacement again, and after the outer exit the original is back,
    however the inner block ends. *)
Theorem nested_patch_allreduce_unwinds {A} (block : T A)
    (outer inner orig : value) (s : state) :
  dist s !! "all_reduce" = Some orig →
  let inside :=
    block (set_dist "all_reduce" inner (set_dist "all_reduce" outer s)) in
  let run :=
    patch_allreduce outer
      (x ← patch_allreduce inner block;
       seen ← getattr_dist "all_reduce";
       mret (x, seen)) s in
  run.1 =
    match inside.1 with
    | Return x => Return (x, outer)
    | Raise e => Raise e
    end ∧
  dist run.2 !! "all_reduce" = Some orig.
Proof.
  intros Har. run. rewrite Har. simpl. rewrite lookup_insert_eq. simpl.
  destruct (block _) as [[x|e] s1]; simpl.
  - rewrite lookup_insert_eq. simpl. split; [done|apply lookup_insert_eq].
  - split; [done|apply lookup_insert_eq].
Qed.

(** X3: the two patches do not interfere: nested either way round, they give
    the same run. *)
Theorem patches_commute {A} (block : T A)
    (new_allreduce new_reduce_scatter dtype orig_ar orig_rs : value)
    (s : state) :
  dist s !! "all_reduce" = Some orig_ar →
  dist s !! "_reduce_scatter_base" = Some orig_rs →
  patch_reduce_scatter new_reduce_scatter dtype
    (patch_allreduce new_allreduce block) s
  = patch_allreduce new_allreduce
      (patch_reduce_scatter new_reduce_scatter dtype block) s.
Proof.
  intros Har Hrs. run. rewrite Har, Hrs. simpl.
  rewrite !lookup_insert_ne by done. rewrite Har, Hrs. simpl.
  unfold set_global, set_dist. simpl.
  rewrite (insert_insert_ne (dist s) "all_reduce" "_reduce_scatter_base")
    by done.
  destruct (block _) as [[x|e] s1]; simpl;
    by rewrite (insert_insert_ne (dist s1) "all_reduce"
                  "_reduce_scatter_base") by done.
Qed.

(** X4: a block that leaves the attributes of [torch.distributed] as it finds
    them is framed exactly: after either context manager the attributes are
    those of before the [with] statement. *)
Theorem patches_leave_dist_as_found {A} (block : T A)
    (new_collective dtype orig_ar orig_rs : value) (s : state) :
  dist s !! "all_reduce" = Some orig_ar →
  dist s !! "_reduce_scatter_base" = Some orig_rs →
  (∀ s0, dist (block s0).2 = dist s0) →
  dist (patch_allreduce new_collective block s).2 = dist s ∧
  dist (patch_reduce_scatter new_collective dtype block s).2 = dist s.
Proof.
  intros Har Hrs Hblock. split; run.
  - rewrite Har. simpl.
    pose proof
      (Hblock (set_dist "all_reduce" new_collective s)) as Hkept.
    destruct (block _) as [[x|e] s1]; simpl in *;
      by rewrite Hkept, insert_insert_eq, insert_id.
  - rewrite Hrs. simpl.
    pose proof
      (Hblock (set_global "_CURRENT_FULL_PRECISION_PARAM_DTYPE" dtype
                 (set_dist "_reduce_scatter_base" new_collective s)))
      as Hkept.
    destruct (block _) as [[x|e] s1]; simpl in *;
      by rewrite Hkept, insert_insert_eq, insert_id.
Qed.

End patches.

Section module.
Context `{FW : Framework}.

#[local] Abbreviation value := (Py.value Obj).

(** Statements run one after the other, up to the first that ends the
    module. *)
Lemma exec_module_app (stmts1 stmts2 : list toplevel)
    (g : gmap string value) :
  exec_module (stmts1 ++ stmts2) g
  = match exec_module stmts1 g with
    | Return g' => exec_module stmts2 g'
    | Raise e => Raise e
    end.
Proof.
  revert g. induction stmts1 as [|stmt stmts1 IH]; intros g; simpl.
  - reflexivity.
  - destruct (exec_toplevel stmt g); [apply IH|reflexivity].
Qed.

(** Without an exit guard among them, statements run to the end unless one
    raises in the host, and then end with what the first such raises. *)
Lemma exec_module_unguarded (stmts : list toplevel)
    (g : gmap string value) :
  Forall (λ stmt, match stmt with ExitIf _ _ => False | _ => True end)
    stmts →
  match first_raise stmts with
  | Some e => exec_module stmts g = Raise (FrameworkError e)
  | None => ∃ g', exec_module stmts g = Return g'
  end.
Proof.
  unfold first_raise. intros Hstmts. revert g.
  induction Hstmts as [|stmt stmts Hstmt _ IH]; intros g; simpl.
  - eauto.
  - destruct stmt; try done; simpl;
      (destruct (toplevel_raises _); simpl; [reflexivity|apply IH]).
Qed.

(** X5: the imports of lines 3-37 run before the guards of lines 39-48: an
    import that raises ends the loading with its exception whatever the
    guards would say.  Loading ends with [sys.exit(0)] exactly when no
    import raises and [dist.is_available()] is false or
    [TEST_WITH_DEV_DBG_ASAN] is set; the module runs to its end exactly when
    no statement raises, distributed is available and the build is no ASAN
    build; and loading ends in no exception but [SystemExit(0)] and what a
    statement raised in the host. *)
Theorem load_module_exits_or_loads :
  let imports := before_guards module_body in
  let definitions := after_guards module_body in
  module_body
  = imports ++
    [ExitIf (negb dist_is_available) 0; ExitIf TEST_WITH_DEV_DBG_ASAN 0] ++
    definitions ∧
  (∀ e, first_raise imports = Some e →
        load_module = Raise (FrameworkError e)) ∧
  (load_module = Raise (SystemExit 0)
   ↔ first_raise imports = None ∧
     (dist_is_available = false ∨ TEST_WITH_DEV_DBG_ASAN = true)) ∧
  ((∃ g, load_module = Return g)
   ↔ first_raise imports = None ∧ dist_is_available = true ∧
     TEST_WITH_DEV_DBG_ASAN = false ∧ first_raise definitions = None) ∧
  (∀ e, load_module = Raise e →
        e = SystemExit 0 ∨
        ∃ e', e = FrameworkError e' ∧
          (first_raise imports = Some e' ∨
           first_raise definitions = Some e')).
Proof.
  intros imports definitions.
  assert (module_body
          = imports ++
            [ExitIf (negb dist_is_available) 0;
             ExitIf TEST_WITH_DEV_DBG_ASAN 0] ++ definitions) as Hbody
    by reflexivity.
  split; [exact Hbody|].
  unfold load_module. rewrite Hbody, exec_module_app.
  pose proof (exec_module_unguarded imports fresh_globals
                ltac:(repeat constructor)) as Himports.
  assert (∀ g, match first_raise definitions with
               | Some e => exec_module definitions g = Raise (FrameworkError e)
               | None => ∃ g', exec_module definitions g = Return g'
               end) as Hdefinitions.
  { intros g. apply exec_module_unguarded. repeat constructor. }
  clearbody imports definitions. clear Hbody.
  destruct (first_raise imports) as [e1|].
  { rewrite Himports. split_and!.
    - by intros e [= <-].
    - split; [done|by intros [? _]].
    - split; [by intros [g ?]|by intros [? _]].
    - intros e [= <-]. right. eauto. }
  destruct Himports as [g1 ->].
  destruct dist_is_available, TEST_WITH_DEV_DBG_ASAN;
    cbn [exec_module exec_toplevel negb app].
  2:{ specialize (Hdefinitions g1).
      destruct (first_raise definitions) as [e2|].
      - rewrite Hdefinitions. split_and!.
        + done.
        + split; [done|by intros [_ [|]]].
        + split; [by intros [g ?]|by intros (_ & _ & _ & ?)].
        + intros e [= <-]. right. eauto.
      - destruct Hdefinitions as [g2 ->]. split_and!.
        + done.
        + split; [done|by intros [_ [|]]].
        + split; [done|eauto].
        + done. }
  all: split_and!;
    [ done
    | split; [auto|done]
    | split; [by intros [g ?]|by intros (_ & ? & ? & _)]
    | intros e [= <-]; by left ].
Qed.

(** X6: the module never binds [_CURRENT_FULL_PRECISION_PARAM_DTYPE] itself:
    before the first [patch_reduce_scatter] reading it is a NameError, the
    block of a [patch_reduce_scatter] reads the dtype given, and from its exit
    on the name is bound, to None. *)
Theorem dtype_global_is_unbound_until_patched {A} (block : T A)
    (new_reduce_scatter dtype orig : value) (s : state)
    (g : gmap string value) :
  load_module = Return g →
  globals s = g →
  dist s !! "_reduce_scatter_base" = Some orig →
  load_name "_CURRENT_FULL_PRECISION_PARAM_DTYPE" s
    = (Raise (NameError "_CURRENT_FULL_PRECISION_PARAM_DTYPE"), s) ∧
  (patch_reduce_scatter new_reduce_scatter dtype
     (load_name "_CURRENT_FULL_PRECISION_PARAM_DTYPE") s).1
    = Return dtype ∧
  (load_name "_CURRENT_FULL_PRECISION_PARAM_DTYPE"
     (patch_reduce_scatter new_reduce_scatter dtype block s).2).1
    = Return VNone.
Proof.
  intros Hload Hg Hrs. split_and!.
  - by apply (HybridShardTheory.load_name_unbound s g).
  - unfold patch_reduce_scatter, try_finally, getattr_dist, setattr_dist,
      store_global, load_name, mbind, T_bind. simpl.
    rewrite Hrs. simpl. by rewrite lookup_insert_eq.
  - unfold patch_reduce_scatter, try_finally, getattr_dist, setattr_dist,
      store_global, load_name, mbind, T_bind. simpl.
    rewrite Hrs. simpl.
    destruct (block _) as [[x|e] s1]; simpl; by rewrite lookup_insert_eq.
Qed.

End module.

(** *** What the computations of the test keep *)

Import HybridShardInvariants.

Section rules.
Context `{FW : Framework}.
Context (P : state → Prop) (allowed : exn E → Prop).

#[local] Abbreviation value := (Py.value Obj).

Lemma keeps_ret {A} (a : A) : keeps P allowed (mret a).
Proof. intros s HP. by split. Qed.

Lemma keeps_bind {A B} (m : T A) (f : A → T B) :
  keeps P allowed m → (∀ a, keeps P allowed (f a)) →
  keeps P allowed (m ≫= f).
Proof.
  intros Hm Hf s HP. unfold mbind, T_bind.
  destruct (Hm s HP) as [HP1 Hexn].
  destruct (m s) as [[a|e] s1]; simpl in *; [by apply Hf|].
  split; [done|]. intros e' [= <-]. by apply Hexn.
Qed.

Lemma keeps_call {A} (f : fw A) :
  own_state_free P → (∀ e, allowed (FrameworkError e)) →
  keeps P allowed (call f).
Proof.
  intros Hfree Hallowed s HP. unfold call.
  destruct (f _ _) as [[a|e] st]; simpl.
  - split; [by apply Hfree|done].
  - split; [by apply Hfree|]. by intros ? [= <-].
Qed.

Lemma keeps_assert (holds : bool) :
  own_state_free P → allowed AssertionError →
  keeps P allowed (assert_ holds).
Proof.
  intros Hfree Hallowed s HP. unfold assert_. simpl.
  split; [by apply Hfree|]. destruct holds; by intros ? [= <-].
Qed.

Lemma keeps_load_name name :
  (∀ s, P s →
     is_Some (globals s !! name) ∨ name ∈ builtins
     ∨ allowed (NameError name)) →
  keeps P allowed (load_name name).
Proof.
  intros Hname s HP. unfold load_name.
  destruct (globals s !! name) as [v|] eqn:Hv; [by split|].
  destruct (decide _) as [Hb|Hb]; [by split|]. simpl.
  split; [done|]. intros ? [= <-].
  destruct (Hname s HP) as [[v Hv']|[?|?]]; [congruence|done..].
Qed.

Lemma keeps_getattr_dist name :
  allowed (AttributeError name) → keeps P allowed (getattr_dist name).
Proof.
  intros Hallowed s HP. unfold getattr_dist.
  destruct (dist s !! name); simpl; [by split|].
  split; [done|]. by intros ? [= <-].
Qed.

Lemma keeps_for_each {A} (xs : list A) (body : A → T unit) :
  (∀ x, keeps P allowed (body x)) → keeps P allowed (for_each xs body).
Proof.
  intros Hbody. induction xs as [|x xs IH]; simpl.
  - apply keeps_ret.
  - apply keeps_bind; [apply Hbody|by intros _].
Qed.

Lemma keeps_skip_if_lt_x_gpu {A} (x : nat) (test : T A) :
  allowed SkipTest → keeps P allowed test →
  keeps P allowed (skip_if_lt_x_gpu x test).
Proof.
  intros Hallowed Htest s HP. unfold skip_if_lt_x_gpu.
  destruct (decide _); [by apply Htest|]. simpl.
  split; [done|]. by intros ? [= <-].
Qed.

(** [patch_allreduce] keeps what does not look at the attributes of
    [torch.distributed]. *)
Lemma keeps_patch_allreduce {A} (new_allreduce : value) (block : T A) :
  (∀ s name v, P s → P (set_dist name v s)) →
  allowed (AttributeError "all_reduce") →
  keeps P allowed block →
  keeps P allowed (patch_allreduce new_allreduce block).
Proof.
  intros Hdist Hallowed Hblock s HP.
  unfold patch_allreduce, try_finally, getattr_dist, setattr_dist, mbind,
    T_bind.
  destruct (dist s !! "all_reduce") as [orig|]; simpl.
  - destruct (Hblock (set_dist "all_reduce" new_allreduce s)) as [HP1 Hexn];
      [by apply Hdist|].
    destruct (block _) as [[x|e] s1]; simpl in *.
    + split; [by apply Hdist|done].
    + split; [by apply Hdist|]. intros ? [= <-]. by apply Hexn.
  - split; [done|]. by intros ? [= <-].
Qed.

End rules.

(** One step through a computation of the test, by its shape. *)
Ltac keeps_step :=
  lazymatch goal with
  | |- keeps _ _ (mret _) => apply keeps_ret
  | |- keeps _ _ (mbind _ _) => apply keeps_bind; [|intros ?]
  | |- keeps _ _ (for_each _ _) => apply keeps_for_each; intros ?
  | |- keeps _ _ (skip_if_lt_x_gpu _ _) =>
      apply keeps_skip_if_lt_x_gpu; [done|]
  | |- keeps _ _ (getattr_dist _) => apply keeps_getattr_dist; done
  end.

Section whole_test.
Context `{FW : Framework}.

#[local] Abbreviation value := (Py.value Obj).

(** With the replacement bound in the block, [patch_allreduce] keeps the
    attributes of [torch.distributed] as a whole. *)
Lemma keeps_dist_patch_allreduce {A} (D : gmap string value)
    (new_allreduce : value) (block : T A) :
  keeps (λ s, dist s = <["all_reduce" := new_allreduce]> D) (λ _, True)
    block →
  keeps (λ s, dist s = D) (λ _, True) (patch_allreduce new_allreduce block).
Proof.
  intros Hblock s HD.
  unfold patch_allreduce, try_finally, getattr_dist, setattr_dist, mbind,
    T_bind.
  destruct (dist s !! "all_reduce") as [orig|] eqn:Horig; simpl; [|done].
  destruct (Hblock (set_dist "all_reduce" new_allreduce s)) as [HD1 _];
    [simpl; by rewrite HD|].
  destruct (block _) as [[x|e] s1]; simpl in *;
    (split; [|done]);
    rewrite HD1, insert_insert_eq, insert_id; congruence.
Qed.

(** X7: however the test ends (skipped, failed in the set-up, NameError, a
    failed assertion, an exception of the training step, or passed), the
    attributes of [torch.distributed] are those it started with: the patch of
    lines 124-128 never leaks. *)
Theorem test_leaves_dist_as_found (s : state) :
  dist (test_fsdp_hybrid_shard_basic_setup s).2 = dist s.
Proof.
  assert (own_state_free (λ s', dist s' = dist s)) as Hfree by by intros ???.
  assert (∀ name,
            keeps (λ s', dist s' = dist s) (λ _, True) (load_name name))
    as Hload.
  { intros name. apply keeps_load_name. auto. }
  assert (∀ A (f : fw A),
            keeps (λ s', dist s' = dist s) (λ _, True) (call f)) as Hcall.
  { intros A f. by apply keeps_call. }
  assert (∀ b, keeps (λ s', dist s' = dist s) (λ _, True) (assert_ b))
    as Hassert.
  { intros b. by apply keeps_assert. }
  enough (keeps (λ s', dist s' = dist s) (λ _, True)
            test_fsdp_hybrid_shard_basic_setup) as Hkeeps
    by exact (proj1 (Hkeeps s eq_refl)).
  unfold test_fsdp_hybrid_shard_basic_setup, setup, checks, check_module,
    check_inter_node_pg, process_group.
  cbv zeta.
  repeat first [keeps_step | apply Hload | apply Hcall | apply Hassert].
  apply keeps_dist_patch_allreduce.
  repeat first [keeps_step | apply keeps_call; [by intros ???|done]].
Qed.

#[local] Abbreviation fixed g v :=
  (λ s' : state, globals s' = <["FullyShardedDataParallel" := v]> g).
#[local] Abbreviation no_NameError :=
  (λ e : exn E, ∀ n, e ≠ NameError n).

(** X8: [FullyShardedDataParallel] is the only name the test reads that
    neither the module nor the builtins bind: were it bound beside the names
    of the module, no run of the test, on whatever framework, would end in a
    NameError. *)
Theorem FullyShardedDataParallel_is_the_only_unbound_name
    (s : state) (g : gmap string value) (v : value) (name : string) :
  load_module = Return g →
  globals s = <["FullyShardedDataParallel" := v]> g →
  (test_fsdp_hybrid_shard_basic_setup s).1 ≠ Raise (NameError name).
Proof.
  intros Hload Hg.
  assert (own_state_free (fixed g v)) as Hfree by by intros ???.
  assert (∀ n,
            bool_decide
              (n ∈ "FullyShardedDataParallel" ::
                 (mjoin (bound_names <$> module_body) ++
                    ["__name__"; "__doc__"; "__package__"; "__loader__";
                     "__spec__"; "__file__"; "__builtins__"]) ++ builtins)
            = true →
            keeps (fixed g v) no_NameError (load_name n)) as Hname.
  { intros n Hn%bool_decide_eq_true. apply keeps_load_name.
    intros s' ->. rewrite lookup_insert_is_Some', <- elem_of_dom.
    rewrite (HybridShardTheory.module_globals_dom g n Hload).
    rewrite elem_of_cons, elem_of_app in Hn.
    destruct Hn as [->|[?|?]]; auto. }
  assert (∀ A (f : fw A), keeps (fixed g v) no_NameError (call f)) as Hcall.
  { intros A f. by apply keeps_call. }
  assert (∀ b, keeps (fixed g v) no_NameError (assert_ b)) as Hassert.
  { intros b. by apply keeps_assert. }
  enough (keeps (fixed g v) no_NameError test_fsdp_hybrid_shard_basic_setup)
    as Hkeeps.
  { intros Hraise. by apply (proj2 (Hkeeps s Hg) _ Hraise name). }
  unfold test_fsdp_hybrid_shard_basic_setup, setup, checks, check_module,
    check_inter_node_pg, process_group.
  cbv zeta.
  repeat first
    [keeps_step | by apply Hname | apply Hcall | apply Hassert].
  apply keeps_patch_allreduce; [by intros ??? HP|done|].
  repeat first [keeps_step | apply Hcall].
Qed.

End whole_test.

Local Open Scope nat_scope.

Section group_checks.
Context `{FW : Framework}.

#[local] Abbreviation value := (Py.value Obj).

(** The loop of lines 116-117 over a list of ranks, where
    [_rank_not_in_group] answers. *)
Lemma other_ranks_loop (g : gmap string value) (pg : ProcessGroup)
    (excluded : nat → bool) (ranks : list nat) (s : state) :
  load_module = Return g → globals s = g →
  (∀ r attrs st,
     _rank_not_in_group r pg attrs st = (Return (excluded r), st)) →
  let run :=
    for_each ranks
      (λ r,
         _ ← load_name "_rank_not_in_group";
         not_in_group ← call (_rank_not_in_group r pg);
         assert_ not_in_group) s in
  (run.1 = Return () ∨ run.1 = Raise AssertionError) ∧
  (run.1 = Return () ↔ Forall (λ r, excluded r = true) ranks) ∧
  (run.1 = Return () → assertions run.2 = assertions s + length ranks) ∧
  assertions s ≤ assertions run.2.
Proof.
  intros Hload Hg Hex. revert Hg.
  set (body := λ r : nat,
         _ ← load_name "_rank_not_in_group";
         not_in_group ← call (_rank_not_in_group r pg);
         assert_ not_in_group).
  revert s. induction ranks as [|r ranks IH]; intros s Hg; cbv zeta.
  - simpl. split_and!; [by left|done|intros _; lia|lia].
  - set (s1 := {| dist := dist s; globals := globals s;
                  framework := framework s;
                  assertions := S (assertions s) |}).
    assert (for_each (r :: ranks) body s
            = if excluded r then for_each ranks body s1
              else (Raise AssertionError, s1)) as ->.
    { simpl. unfold mbind, T_bind. unfold body at 1. unfold mbind, T_bind.
      HybridShardTheory.load_bound Hload Hg.
      unfold call at 1. rewrite Hex. simpl. by destruct (excluded r). }
    destruct (IH s1 Hg) as (Hor & Hiff & Hcount & Hle). simpl in *.
    destruct (excluded r) eqn:Hr; simpl.
    + split_and!.
      * done.
      * rewrite Hiff. split; [by constructor|by inversion 1].
      * intros Hret. rewrite (Hcount Hret). lia.
      * lia.
    + split_and!; [by right|split; [done|]|done|lia].
      inversion 1; congruence.
Qed.

(** X9: where the group queries answer [my_rank] and [world_size], the
    checks of lines 112-117 go as the calls of [_rank_not_in_group] go.
    Where these calls answer, the checks end in AssertionError or pass, and
    they pass exactly when the answer is False for [my_rank] and True for
    every other rank below [world_size]; a passing run has evaluated one
    assertion for the rank itself and one for every other rank.  Where the
    call of line 115 raises, the checks end with its exception and no
    assertion has been evaluated. *)
Theorem check_inter_node_pg_passes_iff (fsdp_module : FSDPModule)
    (group : ProcessGroup) (my_rank world_size : nat)
    (s : state) (g : gmap string value) :
  load_module = Return g →
  globals s = g →
  (∀ attrs st, _get_default_group attrs st = (Return group, st)) →
  (∀ attrs st, get_rank group attrs st = (Return my_rank, st)) →
  (∀ attrs st, get_world_size group attrs st = (Return world_size, st)) →
  let inter_node_pg := _inter_node_pg fsdp_module in
  let run := check_inter_node_pg fsdp_module s in
  (∀ excluded : nat → bool,
     (∀ r attrs st,
        _rank_not_in_group r inter_node_pg attrs st
        = (Return (excluded r), st)) →
     (run.1 = Return () ∨ run.1 = Raise AssertionError) ∧
     (run.1 = Return () ↔
        excluded my_rank = false ∧
        ∀ r, r < world_size → r ≠ my_rank → excluded r = true) ∧
     (run.1 = Return () →
      assertions run.2
      = assertions s + 1
        + length (filter (λ i, i ≠ my_rank) (seq 0 world_size))))
  ∧
  (∀ e st,
     _rank_not_in_group my_rank inter_node_pg (dist s) (framework s)
     = (Raise e, st) →
     run.1 = Raise (FrameworkError e) ∧ assertions run.2 = assertions s).
Proof.
  intros Hload Hg Hgroup Hrank Hsize inter_node_pg run. subst run.
  pose (rest :=
          not_in_group ← call (_rank_not_in_group my_rank inter_node_pg);
          assert_ (negb not_in_group);;
          for_each (filter (λ i, i ≠ my_rank) (seq 0 world_size))
            (λ r,
               _ ← load_name "_rank_not_in_group";
               not_in_group ← call (_rank_not_in_group r inter_node_pg);
               assert_ not_in_group)).
  assert (check_inter_node_pg fsdp_module s
          = rest {| dist := dist s; globals := globals s;
                    framework := framework s;
                    assertions := assertions s |})
    as ->.
  { unfold check_inter_node_pg, process_group. cbv zeta.
    fold inter_node_pg.
    set (body := λ r : nat,
           _ ← load_name "_rank_not_in_group";
           not_in_group ← call (_rank_not_in_group r inter_node_pg);
           assert_ not_in_group).
    unfold mbind, T_bind.
    do 2 HybridShardTheory.load_bound Hload Hg.
    unfold call at 1. rewrite Hgroup. simpl.
    unfold call at 1. rewrite Hrank. simpl.
    HybridShardTheory.load_builtin Hload Hg.
    do 2 HybridShardTheory.load_bound Hload Hg.
    unfold call at 1. rewrite Hgroup. simpl.
    unfold call at 1. rewrite Hsize. simpl.
    HybridShardTheory.load_bound Hload Hg.
    reflexivity. }
  subst rest.
  set (body := λ r : nat,
         _ ← load_name "_rank_not_in_group";
         not_in_group ← call (_rank_not_in_group r inter_node_pg);
         assert_ not_in_group).
  unfold mbind, T_bind, call. simpl.
  split.
  - intros excluded Hex. rewrite Hex. simpl.
    assert (Forall (λ r, excluded r = true)
              (filter (λ i, i ≠ my_rank) (seq 0 world_size))
            ↔ ∀ r, r < world_size → r ≠ my_rank → excluded r = true)
      as Hothers.
    { rewrite Forall_forall. setoid_rewrite list_elem_of_filter.
      setoid_rewrite elem_of_seq. split.
      - intros H r Hlt Hne. apply H. split; [done|lia].
      - intros H r [Hne [_ Hlt]]. apply H; [lia|done]. }
    destruct (excluded my_rank) eqn:Hmine; simpl.
    + split_and!; [by right|split; [done|by intros [? _]]|done].
    + match goal with
      | |- context [for_each ?ranks body ?s1] =>
          destruct (other_ranks_loop g inter_node_pg excluded ranks s1
                      Hload Hg Hex)
            as (Hor & Hiff & Hcount & _)
      end.
      fold body in Hor, Hiff, Hcount. simpl in Hcount. split_and!.
      * done.
      * rewrite Hiff, Hothers. split; [by split|by intros [_ ?]].
      * intros Hret. rewrite (Hcount Hret). lia.
  - intros e st Hraise. rewrite Hraise. simpl. done.
Qed.

End group_checks.

(** The theorems on the first of the two workers of the test. *)

Import FSDPModel.

#[local] Abbreviation obj name :=
  (VObj (Obj := Obj (Framework := first_worker)) name).

Lemma patches_raise_without_the_attribute_witness :
  patch_reduce_scatter (obj "patched") (obj "torch.float16") (mret ())
    no_reduce_scatter_state
  = (Raise (AttributeError "_reduce_scatter_base"), no_reduce_scatter_state).
Proof.
  apply (proj2 (patches_raise_without_the_attribute (mret ())
                  (obj "patched") (obj "torch.float16")
                  no_reduce_scatter_state)).
  reflexivity.
Defined.

(** There [patch_allreduce] finds its attribute and runs the block. *)
Example patch_allreduce_without_reduce_scatter :
  (patch_allreduce (obj "patched") (getattr_dist "all_reduce")
     no_reduce_scatter_state).1
  = Return (obj "patched").
Proof. reflexivity. Qed.

Lemma nested_patch_allreduce_unwinds_witness :
  let inside :=
    raise (A := unit) AssertionError
      (set_dist "all_reduce" (obj "inner")
         (set_dist "all_reduce" (obj "outer") start)) in
  let run :=
    patch_allreduce (obj "outer")
      (x ← patch_allreduce (obj "inner") (raise (A := unit) AssertionError);
       seen ← getattr_dist "all_reduce";
       mret (x, seen)) start in
  run.1 =
    match inside.1 with
    | Return x => Return (x, obj "outer")
    | Raise e => Raise e
    end ∧
  dist run.2 !! "all_reduce" = Some (obj "torch.distributed.all_reduce").
Proof.
  apply (nested_patch_allreduce_unwinds (raise AssertionError) (obj "outer")
           (obj "inner") (obj "torch.distributed.all_reduce") start).
  reflexivity.
Defined.

Example nested_patch_allreduce_sees_outer :
  (patch_allreduce (obj "outer")
     (_ ← patch_allreduce (obj "inner") (mret ());
      getattr_dist "all_reduce") start).1
  = Return (obj "outer").
Proof. reflexivity. Qed.

Lemma patches_commute_witness :
  patch_reduce_scatter (obj "rs") (obj "torch.float16")
    (patch_allreduce (obj "ar") (getattr_dist "all_reduce")) start
  = patch_allreduce (obj "ar")
      (patch_reduce_scatter (obj "rs") (obj "torch.float16")
         (getattr_dist "all_reduce")) start.
Proof.
  apply (patches_commute (getattr_dist "all_reduce") (obj "ar") (obj "rs")
           (obj "torch.float16") (obj "torch.distributed.all_reduce")
           (obj "torch.distributed._reduce_scatter_base") start);
    reflexivity.
Defined.

Lemma patches_leave_dist_as_found_witness :
  dist (patch_allreduce (obj "ar") (load_name "dist") start).2 = dist start ∧
  dist
    (patch_reduce_scatter (obj "rs") (obj "torch.float16")
       (load_name "dist") start).2
  = dist start.
Proof.
  apply (patches_leave_dist_as_found (load_name "dist") (obj "ar")
           (obj "torch.float16") (obj "torch.distributed.all_reduce")
           (obj "torch.distributed._reduce_scatter_base") start).
  - reflexivity.
  - reflexivity.
  - intros s0. by rewrite HybridShardTheory.load_name_state.
Defined.

Lemma dtype_global_is_unbound_until_patched_witness :
  load_name "_CURRENT_FULL_PRECISION_PARAM_DTYPE" start
    = (Raise (NameError "_CURRENT_FULL_PRECISION_PARAM_DTYPE"), start) ∧
  (patch_reduce_scatter (obj "rs") (obj "torch.float16")
     (load_name "_CURRENT_FULL_PRECISION_PARAM_DTYPE") start).1
    = Return (obj "torch.float16") ∧
  (load_name "_CURRENT_FULL_PRECISION_PARAM_DTYPE"
     (patch_reduce_scatter (obj "rs") (obj "torch.float16")
        (raise (A := unit) AssertionError) start).2).1
    = Return VNone.
Proof.
  apply (dtype_global_is_unbound_until_patched (raise AssertionError)
           (obj "rs") (obj "torch.float16")
           (obj "torch.distributed._reduce_scatter_base") start
           (module_globals (FW := first_worker)));
    reflexivity.
Defined.

Lemma FullyShardedDataParallel_is_the_only_unbound_name_witness :
  (test_fsdp_hybrid_shard_basic_setup repaired_state).1
  ≠ Raise (NameError "FullyShardedDataParallel").
Proof.
  apply (FullyShardedDataParallel_is_the_only_unbound_name repaired_state
           (module_globals (FW := first_worker))
           (obj "torch.distributed.fsdp.FullyShardedDataParallel")
           "FullyShardedDataParallel");
    reflexivity.
Defined.

(** With the name bound, the test passes on the modelled worker: all nine
    assertions hold and the training step runs. *)
Example repaired_test_passes :
  (test_fsdp_hybrid_shard_basic_setup repaired_state).1 = Return () ∧
  assertions (test_fsdp_hybrid_shard_basic_setup repaired_state).2 = 9.
Proof. split; reflexivity. Qed.

Lemma check_inter_node_pg_passes_iff_witness :
  let inter_node_pg := inter_node_ranks one_node_two_workers 0 in
  let excluded := λ r, rank_not_in_group r inter_node_pg in
  let run :=
    check_inter_node_pg (FW := first_worker)
      (attrs_of one_node_two_workers 0 HYBRID_SHARD 0) start in
  (run.1 = Return () ∨ run.1 = Raise AssertionError) ∧
  (run.1 = Return () ↔
     excluded 0 = false ∧ ∀ r, r < 2 → r ≠ 0 → excluded r = true) ∧
  (run.1 = Return () →
   assertions run.2
   = assertions start + 1 + length (filter (λ i, i ≠ 0) (seq 0 2))).
Proof.
  intros inter_node_pg excluded run.
  apply (proj1
           (check_inter_node_pg_passes_iff (FW := first_worker)
              (attrs_of one_node_two_workers 0 HYBRID_SHARD 0) [0; 1] 0 2
              start (module_globals (FW := first_worker))
              eq_refl eq_refl (λ _ _, eq_refl) (λ _ _, eq_refl)
              (λ _ _, eq_refl))
           excluded).
  reflexivity.
Defined.

(** Where the call of line 115 raises, the checks end with its exception
    before any assertion. *)
Example check_inter_node_pg_raises_with_the_call :
  let run :=
    check_inter_node_pg (FW := other_rank_check)
      (attrs_of one_node_two_workers 0 HYBRID_SHARD 0)
      {| dist := ∅; globals := module_globals (FW := other_rank_check);
         framework := (); assertions := 0 |} in
  run.1 = Raise (FrameworkError "TypeError") ∧ assertions run.2 = 0.
Proof. split; reflexivity. Qed.

(** Where an import of lines 3-37 fails, loading ends with its exception
    and not with [sys.exit(0)], also when distributed is not available. *)
Example load_module_import_fails_before_the_guard :
  dist_is_available (Framework := no_fsdp_build) = false ∧
  load_module (FW := no_fsdp_build) = Raise (FrameworkError "ImportError").
Proof. split; reflexivity. Qed.

Example load_module_on_the_first_worker :
  is_return (load_module (FW := first_worker)) = true.
Proof. reflexivity. Qed.

End HybridShardMore.

(** ** More on the exporter *)

Module ExporterMore.
Import Signature Exporter.

Local Open Scope nat_scope.

Section exporter.
Context `{FW : Framework}.

#[local] Abbreviation value := (Py.value Obj).

Lemma lowering_stops_at_a_raise d gm args ubf opset dbg i b c :
  spec_lowering_steps d gm args ubf opset dbg !! i = Some (b, c) →
  is_Some (raised_by c) →
  S i = length (spec_lowering_steps d gm args ubf opset dbg).
Proof.
  unfold spec_lowering_steps, export_options_of.
  destruct (Decompose_run _ _ _) as [dm|?] eqn:H1; simpl;
    [destruct (ShapeInferenceWithFakeTensor_run _ _) as [dm'|?] eqn:H2; simpl;
     [destruct (export_fx_to_onnxscript _ _) as [g|?] eqn:H3; simpl;
      [destruct (to_model_proto _ _) as [m|?] eqn:H4; simpl;
       [destruct ubf; simpl|]|]|]|].
  all: intros Hi [exn He];
    repeat (destruct i as [|i]; simpl in Hi;
            [injection Hi as <- <-; simpl in He;
             rewrite ?H1, ?H2, ?H3, ?H4 in He;
             first [discriminate He | reflexivity]|]);
    discriminate Hi.
Qed.

Lemma lowering_serializes_last d gm args ubf opset dbg b m :
  (b, CallSerializeToString m)
    ∈ spec_lowering_steps d gm args ubf opset dbg →
  ubf = true ∧
  last (spec_lowering_steps d gm args ubf opset dbg)
    = Some (b, CallSerializeToString m) ∧
  ∃ g, to_model_proto g opset = Return m.
Proof.
  unfold spec_lowering_steps, export_options_of.
  destruct (Decompose_run _ _ _) as [dm|?] eqn:?; simpl;
    [destruct (ShapeInferenceWithFakeTensor_run _ _) as [dm'|?] eqn:?; simpl;
     [destruct (export_fx_to_onnxscript _ _) as [g|?] eqn:?; simpl;
      [destruct (to_model_proto _ _) as [m'|?] eqn:?; simpl;
       [destruct ubf; simpl|]|]|]|].
  all: intros Hin;
    repeat (apply elem_of_cons in Hin as [Hin|Hin]; [simplify_eq|]);
    try by apply elem_of_nil in Hin.
  split_and!; [done..|eauto].
Qed.

(** X10: in every run of either entry point, a framework call that raises is
    the last call of the run: nothing is retried and no later pass is run. *)
Theorem calls_stop_at_the_first_raise
    (fn : callable Exn Obj NNModule) (args : list value) (kw : kwargs Obj)
    (ubf : bool) (opset : Z) (dbg : bool) (w : world) :
  let run1 := export fn args ubf opset dbg w in
  let run2 :=
    export_after_normalizing_args_and_kwargs fn args ubf opset dbg kw w in
  (∃ steps, calls run1.2 = calls w ++ steps ∧
     ∀ i b c, steps !! i = Some (b, c) → is_Some (raised_by c) →
       S i = length steps)
  ∧
  (∃ steps, calls run2.2 = calls w ++ steps ∧
     ∀ i b c, steps !! i = Some (b, c) → is_Some (raised_by c) →
       S i = length steps).
Proof.
  intros run1 run2. split.
  - eexists. split; [apply ExporterTheory.export_calls|].
    unfold spec_export_steps.
    destruct (DynamoExport_trace _ _ _ _) as [gm|e0] eqn:Htrace;
      intros [|i] b c Hi [e He]; simpl in *; simplify_eq.
    + simpl in He. by rewrite Htrace in He.
    + f_equal. eapply lowering_stops_at_a_raise; eauto.
    + done.
  - eexists. split; [apply ExporterTheory.normalizing_export_calls|].
    unfold spec_normalizing_export_steps.
    destruct (FxFrontendUnpackKwargs_trace _ _ _ _) as [[g bound]|e0]
      eqn:Htrace;
      intros [|i] b c Hi [e He]; simpl in *; simplify_eq.
    + simpl in He. by rewrite Htrace in He.
    + f_equal. eapply lowering_stops_at_a_raise; eauto.
    + done.
Qed.

(** X11: [SerializeToString] is called only when [use_binary_format] is true,
    only on a ModelProto that [to_model_proto] returned at the opset asked
    for, and only as the last call of the run. *)
Theorem serialization_is_last_and_only_for_binary_format
    (fn : callable Exn Obj NNModule) (args : list value) (kw : kwargs Obj)
    (ubf : bool) (opset : Z) (dbg : bool) (w : world) :
  let run1 := export fn args ubf opset dbg w in
  let run2 :=
    export_after_normalizing_args_and_kwargs fn args ubf opset dbg kw w in
  (∃ steps, calls run1.2 = calls w ++ steps ∧
     ∀ b m, (b, CallSerializeToString m) ∈ steps →
       ubf = true ∧ last steps = Some (b, CallSerializeToString m) ∧
       ∃ g, to_model_proto g opset = Return m)
  ∧
  (∃ steps, calls run2.2 = calls w ++ steps ∧
     ∀ b m, (b, CallSerializeToString m) ∈ steps →
       ubf = true ∧ last steps = Some (b, CallSerializeToString m) ∧
       ∃ g, to_model_proto g opset = Return m).
Proof.
  assert (∀ (x : bool * call) steps y,
            last steps = Some y → last (x :: steps) = Some y) as Hlast.
  { intros x [|x' steps] y; [done|]. by intros. }
  intros run1 run2. split.
  - eexists. split; [apply ExporterTheory.export_calls|].
    unfold spec_export_steps.
    destruct (DynamoExport_trace _ _ _ _) as [gm|e0];
      intros b m [Hin|Hin]%elem_of_cons; simplify_eq.
    + apply lowering_serializes_last in Hin as (? & ? & ?). auto.
    + by apply elem_of_nil in Hin.
  - eexists. split; [apply ExporterTheory.normalizing_export_calls|].
    unfold spec_normalizing_export_steps.
    destruct (FxFrontendUnpackKwargs_trace _ _ _ _) as [[g bound]|e0];
      intros b m [Hin|Hin]%elem_of_cons; simplify_eq.
    + apply lowering_serializes_last in Hin as (? & ? & ?). auto.
    + by apply elem_of_nil in Hin.
Qed.

(** X12: a call of [export_after_normalizing_args_and_kwargs] that returns has
    traced the wrapper with the arguments and keyword arguments as given and
    then run the four passes, each on the result of the one before and on the
    bound arguments without the Nones, followed only by the serialization when
    the binary format is asked for; only [export_fx_to_onnxscript] runs with
    dispatch disabled regardless of the caller. *)
Theorem normalizing_export_runs_passes_in_order
    (fn : callable Exn Obj NNModule) (args : list value) (kw : kwargs Obj)
    (ubf : bool) (opset : Z) (dbg : bool) (w : world) :
  let run :=
    export_after_normalizing_args_and_kwargs fn args ubf opset dbg kw w in
  let d := dispatch_disabled w in
  let table := _ONNX_FRIENDLY_DECOMPOSITION_TABLE in
  let opts := export_options_of ubf opset dbg in
  ∀ out, run.1 = Return out →
    ∃ captured_graph bound_args dm dm' g m,
      let passed := filter (λ arg, arg ≠ VNone) bound_args in
      FxFrontendUnpackKwargs_trace false (wrapper fn) args kw
        = Return (captured_graph, bound_args) ∧
      Decompose_run captured_graph table passed = Return dm ∧
      ShapeInferenceWithFakeTensor_run dm passed = Return dm' ∧
      export_fx_to_onnxscript dm' opts = Return g ∧
      to_model_proto g opset = Return m ∧
      calls run.2 =
        calls w ++
        [ (d, CallUnpackKwargsTrace false (wrapper fn) args kw);
          (d, CallDecompose captured_graph table passed);
          (d, CallShapeInference dm passed);
          (true, CallExportFxToOnnxscript dm' opts);
          (d, CallToModelProto g opset) ] ++
        (if ubf then [(d, CallSerializeToString m)] else []).
Proof.
  intros run d table opts out. subst run.
  rewrite ExporterTheory.normalizing_export_calls. fold d.
  unfold export_after_normalizing_args_and_kwargs,
    spec_normalizing_export_steps, spec_lowering_steps, _export, update,
    no_dispatch, invoke, mbind, M_bind, mret, M_ret, default.
  simpl.
  destruct (FxFrontendUnpackKwargs_trace _ _ _ _) as [[cg bound]|?] eqn:H0;
    simpl; [|discriminate].
  fold table. fold opts.
  destruct (Decompose_run _ _ _) as [dm|?] eqn:H1; simpl; [|discriminate].
  destruct (ShapeInferenceWithFakeTensor_run _ _) as [dm'|?] eqn:H2; simpl;
    [|discriminate].
  destruct (export_fx_to_onnxscript _ _) as [g|?] eqn:H3; simpl;
    [|discriminate].
  destruct (to_model_proto _ _) as [m|?] eqn:H4; simpl; [|discriminate].
  intros _. exists cg, bound, dm, dm', g, m. simpl.
  split_and!; done.
Qed.

End exporter.

Lemma normalizing_export_runs_passes_in_order_witness :
  let args := [VInt 1; VNone] in
  let kw := [("mask", VNone); ("k", VInt 2)] in
  let run :=
    export_after_normalizing_args_and_kwargs (FW := toy) toy_fn args
      false 18 false kw toy_world in
  let opts := export_options_of (FW := toy) false 18 false in
  ∃ captured_graph bound_args dm dm' g m,
    let passed := filter (λ arg, arg ≠ VNone) bound_args in
    FxFrontendUnpackKwargs_trace (Framework := toy) false
      (wrapper (FW := toy) toy_fn) args kw
      = Return (captured_graph, bound_args) ∧
    Decompose_run (Framework := toy) captured_graph 7 passed = Return dm ∧
    ShapeInferenceWithFakeTensor_run (Framework := toy) dm passed
      = Return dm' ∧
    export_fx_to_onnxscript (Framework := toy) dm' opts = Return g ∧
    to_model_proto (Framework := toy) g 18 = Return m ∧
    calls run.2 =
      calls toy_world ++
      [ (false,
         CallUnpackKwargsTrace (FW := toy) false (wrapper (FW := toy) toy_fn)
           args kw);
        (false, CallDecompose (FW := toy) captured_graph 7 passed);
        (false, CallShapeInference (FW := toy) dm passed);
        (true, CallExportFxToOnnxscript (FW := toy) dm' opts);
        (false, CallToModelProto (FW := toy) g 18) ] ++ [].
Proof.
  intros args kw run opts.
  apply (normalizing_export_runs_passes_in_order (FW := toy) toy_fn args kw
           false 18 false toy_world
           (AsModelProto (FW := toy)
              (["dynamo_optimize"; "decompose"; "shapes"; "onnxscript"],
               18%Z))).
  reflexivity.
Defined.

Section signatures.
Context {V : Type}.

(** X13: the three options of both entry points are keyword-only and [fn] is
    required: in every call that binds, the positional arguments after the
    first are all collected for the model (none of them sets an option), an
    option is bound exactly when the call gives it by keyword, and [fn] is
    bound to the first positional argument or, when the call has no positional
    argument, to the keyword [fn]. *)
Theorem options_are_keyword_only_and_fn_is_required
    (sig : signature) (args : list V) (kws : list (string * V))
    (b : bound_arguments) :
  sig = export_signature ∨
  sig = export_after_normalizing_args_and_kwargs_signature →
  bind sig args kws = Return b →
  varargs b = drop 1 args ∧
  (∀ k v, k ∈ option_names → (k, v) ∈ arguments b ↔ (k, v) ∈ kws) ∧
  ∃ fn, ("fn", fn) ∈ arguments b ∧
    (head args = Some fn ∨ args = [] ∧ ("fn", fn) ∈ kws).
Proof.
  intros Hsig. unfold bind.
  assert (var_positional sig = Some "args") as ->
    by by destruct Hsig as [->| ->].
  assert (positional_or_keyword sig
          = [ {| name := "fn"; has_default := false |} ]) as Hpos
    by by destruct Hsig as [->| ->].
  assert (name <$> parameters sig = "fn" :: option_names) as Hnames
    by by destruct Hsig as [->| ->].
  assert (name <$> filter (λ p, has_default p = false) (parameters sig)
          = ["fn"]) as Hreq
    by by destruct Hsig as [->| ->].
  rewrite Hpos. simpl.
  destruct (bind_keywords _ _ _ _) as [[named extra]|e] eqn:Hb; [|done].
  apply SignatureTheory.bind_keywords_Return in Hb
    as (Hnd & H1 & _ & _ & -> & ->); [|by intros ? ?%elem_of_nil].
  rewrite Hnames.
  unfold missing. rewrite Hreq.
  destruct (head _) as [p|] eqn:Hmissing; [done|].
  intros [= <-]. simpl. split_and!.
  - by destruct args.
  - intros k v Hk. rewrite elem_of_app, list_elem_of_filter. simpl.
    split.
    + intros [Hin|[_ Hin]]; [|done].
      destruct args as [|a args]; simpl in Hin.
      * by apply elem_of_nil in Hin.
      * apply list_elem_of_singleton in Hin. simplify_eq.
        repeat (apply elem_of_cons in Hk as [?|Hk]; [done|]).
        by apply elem_of_nil in Hk.
    + intros Hin. right. split; [|done]. by apply list_elem_of_further.
  - destruct args as [|a args]; simpl in *.
    + apply head_None in Hmissing.
      rewrite filter_cons in Hmissing.
      destruct (decide _) as [|Hin]; [done|].
      apply dec_stable in Hin.
      apply list_elem_of_fmap in Hin as ([k v] & Hk & Hin). simpl in Hk.
      subst k. exists v.
      apply list_elem_of_filter in Hin as [_ Hin].
      split; [|by right].
      apply list_elem_of_filter. split; [|done]. simpl.
      apply list_elem_of_here.
    + exists a. split; [|by left]. apply list_elem_of_here.
Qed.

End signatures.

Lemma options_are_keyword_only_and_fn_is_required_witness :
  let args := ["model"; "input_ids"; "17"] in
  let kws := [("op_level_debug", "True")] in
  let b := {| arguments := [("fn", "model"); ("op_level_debug", "True")];
              varargs := ["input_ids"; "17"];
              varkw := [] |} in
  varargs b = drop 1 args ∧
  (∀ k v, k ∈ option_names → (k, v) ∈ arguments b ↔ (k, v) ∈ kws) ∧
  ∃ fn, ("fn", fn) ∈ arguments b ∧
    (head args = Some fn ∨ args = [] ∧ ("fn", fn) ∈ kws).
Proof.
  intros args kws b.
  apply (options_are_keyword_only_and_fn_is_required export_signature
           args kws b); [by left|reflexivity].
Defined.

Example fn_by_keyword :
  bind export_after_normalizing_args_and_kwargs_signature []
    [("input_ids", "ids"); ("fn", "model")]
  = Return {| arguments := [("fn", "model")];
              varargs := [];
              varkw := [("input_ids", "ids")] |}.
Proof. reflexivity. Qed.

Example fn_missing :
  bind export_signature [] [("opset_version", "17")]
  = Raise (MissingArgument "fn").
Proof. reflexivity. Qed.

End ExporterMore.
